(** * Games to Discord: the two webhook scripts, embedded and verified

    [games_to_discord.py] (Variant A) and [games_to_discord_screenshot.py]
    (Variant B) fetch upcoming releases from the RAWG.io catalog, format
    them as a Discord message and post it to a webhook.

    The embedding follows the Python text.  Values decoded from JSON are
    terms of [json]; a Python dict is an association list in insertion
    order; a raised exception is the [Raise] branch of [res]; the console,
    the configuration file and the network are fields of [world], threaded
    through the monad [M].  Strings are the UTF-8 bytes of the Python
    strings. *)

From Stdlib Require Import ZArith String Ascii List.
From stdpp Require Import base decidable option list strings pretty gmap.
Import ListNotations.
Local Open Scope string_scope.
Local Open Scope list_scope.
Local Open Scope Z_scope.
Local Set Warnings "-register-all".

(** ** Python values *)

(** What [json.load] and [response.json()] produce, and what [json.dumps]
    accepts: [None], [bool], [int], [str], [list], and [dict] with string
    keys.  Numbers with a fraction or an exponent (Python floats) are left
    out: no field the scripts read is one. *)
Inductive json : Type :=
| JNull
| JBool (b : bool)
| JInt (n : Z)
| JStr (s : string)
| JList (l : list json)
| JDict (d : list (string * json)).

Abbreviation pydict := (list (string * json)).

(** The exceptions the scripts can meet.  [RequestException] stands for
    [requests.exceptions.RequestException] and all its subclasses
    (connection errors, timeouts, [HTTPError], invalid URLs); its argument
    is [str(e)].  [OSError] stands for itself and its subclasses
    ([PermissionError], [IsADirectoryError], ...). *)
Inductive exn : Type :=
| RequestException (msg : string)
| JSONDecodeError
| UnicodeDecodeError
| AttributeError
| TypeError
| KeyError
| IndexError
| EOFError
| ValueError
| OSError.

Inductive res (A : Type) : Type :=
| Ok (a : A)
| Raise (e : exn).
Arguments Ok {A} a.
Arguments Raise {A} e.

Definition res_bind {A B} (m : res A) (k : A -> res B) : res B :=
  match m with
  | Ok a => k a
  | Raise e => Raise e
  end.

Notation "x <- m ;; k" := (res_bind m (fun x => k))
  (at level 100, m at next level, right associativity).

Definition raises {A} (m : res A) : Prop := exists e, m = Raise e.

(** *** Dicts *)

(** [d.get(k)] on the association list: the binding of [k], if any. *)
Fixpoint dict_get (k : string) (d : pydict) : option json :=
  match d with
  | [] => None
  | (k', v) :: d' => if String.eqb k k' then Some v else dict_get k d'
  end.

(** [d[k] = v]: an existing key keeps its place, a new one goes last. *)
Fixpoint dict_set (k : string) (v : json) (d : pydict) : pydict :=
  match d with
  | [] => [(k, v)]
  | (k', v') :: d' =>
      if String.eqb k k' then (k', v) :: d' else (k', v') :: dict_set k v d'
  end.

(** [o.get(k, default)]: only a dict has [get]. *)
Definition py_get (o : json) (k : string) (dflt : json) : res json :=
  match o with
  | JDict d => Ok (default dflt (dict_get k d))
  | _ => Raise AttributeError
  end.

(** [o[k]] with a string key: [KeyError] on a dict without it, [TypeError]
    on anything that is not a dict. *)
Definition py_getitem (o : json) (k : string) : res json :=
  match o with
  | JDict d => match dict_get k d with Some v => Ok v | None => Raise KeyError end
  | _ => Raise TypeError
  end.

(** *** Truth value, [str], iteration *)

(** [bool(v)]: [None], [False], [0], and the empty string, list and dict
    are false. *)
Definition py_truthy (v : json) : bool :=
  match v with
  | JNull => false
  | JBool b => b
  | JInt n => negb (n =? 0)
  | JStr s => negb (String.eqb s "")
  | JList l => match l with [] => false | _ => true end
  | JDict d => match d with [] => false | _ => true end
  end.

(** [a or b] on values. *)
Definition py_or (a b : json) : json := if py_truthy a then a else b.

(** A byte [10xxxxxx] continues a UTF-8 sequence. *)
Definition is_continuation (c : ascii) : bool :=
  let n := N_of_ascii c in ((128 <=? n) && (n <? 192))%N.

Definition starts_with_continuation (s : string) : bool :=
  match s with
  | String c _ => is_continuation c
  | EmptyString => false
  end.

(** The characters of a string, each with all its bytes. *)
Fixpoint utf8_chars (s : string) : list string :=
  match s with
  | EmptyString => []
  | String c s' =>
      match utf8_chars s' with
      | h :: t =>
          if starts_with_continuation h then String c h :: t
          else String c EmptyString :: h :: t
      | [] => [String c EmptyString]
      end
  end.

(** [iter(v)]: a list gives its items, a string its characters, a dict its
    keys; nothing else is iterable. *)
Definition py_iter (v : json) : res (list json) :=
  match v with
  | JList l => Ok l
  | JStr s => Ok (JStr <$> utf8_chars s)
  | JDict d => Ok ((fun kv => JStr (fst kv)) <$> d)
  | _ => Raise TypeError
  end.

(** [len(v)]. *)
Definition py_len (v : json) : res nat :=
  match v with
  | JList l => Ok (length l)
  | JStr s => Ok (length (utf8_chars s))
  | JDict d => Ok (length d)
  | _ => Raise TypeError
  end.

(** [v[:n]]: lists and strings can be sliced.  (A dict refuses the slice
    with [TypeError] up to CPython 3.11 and with [KeyError] from 3.12;
    nothing catches either.) *)
Definition py_slice_to (n : nat) (v : json) : res json :=
  match v with
  | JList l => Ok (JList (take n l))
  | JStr s => Ok (JStr (String.concat "" (take n (utf8_chars s))))
  | _ => Raise TypeError
  end.

(** [v[0]]. *)
Definition py_first (v : json) : res json :=
  match v with
  | JList (x :: _) => Ok x
  | JList [] => Raise IndexError
  | JStr s =>
      match utf8_chars s with
      | c :: _ => Ok (JStr c)
      | [] => Raise IndexError
      end
  | JDict _ => Raise KeyError
  | _ => Raise TypeError
  end.

(** The strings of a list of values, as [str.join] demands them. *)
Fixpoint py_strs (l : list json) : res (list string) :=
  match l with
  | [] => Ok []
  | JStr s :: l' => ss <- py_strs l' ;; Ok (s :: ss)
  | _ :: _ => Raise TypeError
  end.

(** [sep.join(l)]. *)
Definition py_join (sep : string) (l : list json) : res string :=
  ss <- py_strs l ;; Ok (String.concat sep ss).

Section Str.
(** [repr] of a list or a dict, the interpreter's own; the scripts only
    ever splice its result into a message. *)
Variable py_repr : json -> string.

(** [str(v)], which an f-string applies to the value in braces. *)
Definition py_str (v : json) : string :=
  match v with
  | JNull => "None"
  | JBool true => "True"
  | JBool false => "False"
  | JInt n => pretty n
  | JStr s => s
  | JList _ | JDict _ => py_repr v
  end.
End Str.

(** *** String constants of the scripts, byte for byte *)

Definition bytes (l : list N) : string :=
  string_of_list_ascii (ascii_of_N <$> l).

(** U+1F3AE, video game; U+1F4C5, calendar; U+2022, bullet. *)
Definition video_game : string := bytes [240; 159; 142; 174]%N.
Definition calendar : string := bytes [240; 159; 147; 133]%N.
Definition bullet : string := bytes [226; 128; 162]%N.

(** The file of Variant A holds these three re-encoded (each byte of the
    UTF-8 form read as Windows-1252 and written out as UTF-8 again). *)
Definition video_game_A : string :=
  bytes [195; 176; 197; 184; 197; 189; 194; 174]%N.
Definition calendar_A : string :=
  bytes [195; 176; 197; 184; 226; 128; 156; 226; 128; 166]%N.
Definition bullet_A : string :=
  bytes [195; 162; 226; 130; 172; 194; 162]%N.

(** Line feed. *)
Definition nl : string := String (ascii_of_N 10) EmptyString.

(** [0x7289DA] and [0x3498DB]. *)
Definition discord_blue : Z := 7506394.
Definition game_color : Z := 3447003.

(** *** Loops and list cells *)

(** [for x in items: s = body(s, x)], stopping at the first exception. *)
Fixpoint for_each {S : Type} (body : S -> json -> res S) (items : list json)
    (s : S) : res S :=
  match items with
  | [] => Ok s
  | x :: items' => s' <- body s x ;; for_each body items' s'
  end.

(** [d[k].append(x)]. *)
Definition dict_append (k : string) (x : json) (d : pydict) : res pydict :=
  match dict_get k d with
  | Some (JList l) => Ok (dict_set k (JList (l ++ [x])) d)
  | Some _ => Raise AttributeError
  | None => Raise KeyError
  end.

(** *** Keys of the screenshot dict *)

(** A hashable value as a dict key.  [True] and [1], [False] and [0] are
    one key each, as Python compares and hashes them alike. *)
Inductive pykey : Type :=
| KNone
| KInt (n : Z)
| KStr (s : string).

#[global] Instance pykey_eq_dec : EqDecision pykey.
Proof. solve_decision. Defined.

#[global] Instance pykey_countable : Countable pykey.
Proof.
  refine (inj_countable'
    (fun k => match k with
              | KNone => inl ()
              | KInt n => inr (inl n)
              | KStr s => inr (inr s)
              end)
    (fun x => match x with
              | inl _ => KNone
              | inr (inl n) => KInt n
              | inr (inr s) => KStr s
              end) _).
  by intros [].
Defined.

(** [hash(v)] succeeds on everything but lists and dicts. *)
Definition py_key (v : json) : res pykey :=
  match v with
  | JNull => Ok KNone
  | JBool b => Ok (KInt (if b then 1 else 0))
  | JInt n => Ok (KInt n)
  | JStr s => Ok (KStr s)
  | JList _ | JDict _ => Raise TypeError
  end.

(** ** The message formatter *)

(** The comprehension both scripts run over a record's platforms:
    [[p.get("platform", {}).get("name", "") for p in platforms_list
      if p.get("platform")]]. *)
Fixpoint platform_names (platforms_list : list json) : res (list json) :=
  match platforms_list with
  | [] => Ok []
  | p :: rest =>
      c <- py_get p "platform" JNull ;;
      if py_truthy c then
        v <- py_get p "platform" (JDict []) ;;
        n <- py_get v "name" (JStr "") ;;
        ns <- platform_names rest ;;
        Ok (n :: ns)
      else platform_names rest
  end.

(** [platforms_list = game.get("platforms") or []] and the joined names,
    the same two lines in both scripts. *)
Definition platforms_of (game : json) : res string :=
  pl <- py_get game "platforms" JNull ;;
  let platforms_list := py_or pl (JList []) in
  items <- py_iter platforms_list ;;
  names <- platform_names items ;;
  py_join ", " names.

Definition no_games : json := JDict [("content", JStr "No upcoming games found!")].


(** ** The world: console, configuration file, clock, network *)

(** What the script writes to the console: a line of [print], or the
    prompt of [input]. *)
Inductive out_event : Type :=
| Printed (line : string)
| Prompted (prompt : string).

(** A call of [requests.get] or [requests.post].  [rq_data] is the payload
    whose [json.dumps] text is the body. *)
Record request : Type := {
  rq_method : string;
  rq_url : json;
  rq_params : pydict;
  rq_headers : pydict;
  rq_data : option json
}.

(** A response: its status, the text [raise_for_status] puts in its
    [HTTPError], and what [response.json()] returns or raises. *)
Record response : Type := {
  status_code : Z;
  http_error : string;
  json_result : res json
}.

(** A request either raises a [RequestException] before any response
    (no connection, timeout, invalid URL), or is answered. *)
Inductive http_outcome : Type :=
| Transport_error (msg : string)
| Response (r : response).

(** What [with open(CONFIG_FILE, "w") as f: json.dump(config, f, indent=4)]
    does: the file is written, and [reads_as] is what [json.load] will make
    of the text; or the write raises ([open] refused, disk full), and
    [remains] is the file as the failed write leaves it. *)
Inductive write_outcome : Type :=
| Written (reads_as : res json)
| Write_fails (e : exn) (remains : option (res json)).

(** [w_config_file] is [None] when the file does not exist, and otherwise
    what [with open(CONFIG_FILE, "r") as f: json.load(f)] gives: the decoded
    value, or the exception of [open] or of [json.load].  [w_write] tells what
    writing a configuration to the file does.  [w_today] is the proleptic
    Gregorian ordinal of today's date ([date.toordinal]), taken at least
    180 days short of [date.max].  [w_http] answers a request given the
    requests issued before it; [w_sent] records those, oldest first. *)
Record world : Type := {
  w_config_file : option (res json);
  w_write : json -> write_outcome;
  w_stdin : list string;
  w_stdout : list out_event;
  w_today : Z;
  w_now : string;
  w_sent : list request;
  w_http : list request -> request -> http_outcome
}.

(** A computation: it ends in a value or an exception, and leaves a world. *)
Definition M (A : Type) : Type := world -> res A * world.

Definition ret {A} (a : A) : M A := fun w => (Ok a, w).

Definition bind {A B} (m : M A) (k : A -> M B) : M B :=
  fun w =>
    match m w with
    | (Ok a, w') => k a w'
    | (Raise e, w') => (Raise e, w')
    end.

Notation "x <~ m ;; k" := (bind m (fun x => k))
  (at level 100, m at next level, right associativity).
Notation "m ;;; k" := (bind m (fun _ => k))
  (at level 100, right associativity).

(** A pure step that may raise. *)
Definition lift {A} (r : res A) : M A := fun w => (r, w).

(** [try: body  except <the exceptions handler accepts>: ...]. *)
Definition try_except {A} (body : M A) (handler : exn -> option (M A)) : M A :=
  fun w =>
    match body w with
    | (Ok a, w') => (Ok a, w')
    | (Raise e, w') =>
        match handler e with
        | Some h => h w'
        | None => (Raise e, w')
        end
    end.

(** [for x in items: s = body(s, x)] with effects. *)
Fixpoint for_each_M {S : Type} (body : S -> json -> M S) (items : list json)
    (s : S) : M S :=
  match items with
  | [] => ret s
  | x :: items' => s' <~ body s x ;; for_each_M body items' s'
  end.

Definition emit (ev : out_event) : M unit :=
  fun w =>
    (Ok tt,
     {| w_config_file := w_config_file w; w_write := w_write w;
        w_stdin := w_stdin w;
        w_stdout := w_stdout w ++ [ev]; w_today := w_today w;
        w_now := w_now w; w_sent := w_sent w; w_http := w_http w |}).

(** [print(line)]. *)
Definition print (line : string) : M unit := emit (Printed line).

(** [input(prompt)]: the prompt is shown, then a line is read;
    [EOFError] when there is none. *)
Definition input (prompt : string) : M string :=
  emit (Prompted prompt) ;;;
  fun w =>
    match w_stdin w with
    | [] => (Raise EOFError, w)
    | line :: rest =>
        (Ok line,
         {| w_config_file := w_config_file w; w_write := w_write w;
        w_stdin := rest;
            w_stdout := w_stdout w; w_today := w_today w;
            w_now := w_now w; w_sent := w_sent w; w_http := w_http w |})
    end.

(** [os.path.exists(CONFIG_FILE)]. *)
Definition config_exists : M bool :=
  fun w => (Ok (bool_decide (is_Some (w_config_file w))), w).

(** [with open(CONFIG_FILE, "r") as f: json.load(f)]. *)
Definition read_config : M json :=
  fun w =>
    match w_config_file w with
    | Some r => (r, w)
    | None => (Raise ValueError, w)
    end.

(** [with open(CONFIG_FILE, "w") as f: json.dump(config, f, indent=4)]. *)
Definition write_config (config : json) : M unit :=
  fun w =>
    let set_file (file : option (res json)) :=
      {| w_config_file := file; w_write := w_write w; w_stdin := w_stdin w;
         w_stdout := w_stdout w; w_today := w_today w;
         w_now := w_now w; w_sent := w_sent w; w_http := w_http w |} in
    match w_write w config with
    | Written reads_as => (Ok tt, set_file (Some reads_as))
    | Write_fails e remains => (Raise e, set_file remains)
    end.

Definition today : M Z := fun w => (Ok (w_today w), w).
Definition now : M string := fun w => (Ok (w_now w), w).

(** The request goes out and is answered. *)
Definition send (rq : request) : M response :=
  fun w =>
    let w' :=
      {| w_config_file := w_config_file w; w_write := w_write w;
        w_stdin := w_stdin w;
         w_stdout := w_stdout w; w_today := w_today w;
         w_now := w_now w; w_sent := w_sent w ++ [rq]; w_http := w_http w |} in
    match w_http w (w_sent w) rq with
    | Transport_error msg => (Raise (RequestException msg), w')
    | Response r => (Ok r, w')
    end.

(** [requests.get(url, params=params)]. *)
Definition requests_get (url : json) (params : pydict) : M response :=
  send {| rq_method := "GET"; rq_url := url; rq_params := params;
          rq_headers := []; rq_data := None |}.

(** [requests.post(url, headers=headers, data=json.dumps(payload))]. *)
Definition requests_post (url : json) (headers : pydict) (payload : json)
    : M response :=
  send {| rq_method := "POST"; rq_url := url; rq_params := [];
          rq_headers := headers; rq_data := Some payload |}.

(** [response.raise_for_status()] of the requests library: an [HTTPError]
    for a 4xx or 5xx status, nothing for any other. *)
Definition raise_for_status (r : response) : res unit :=
  if (400 <=? status_code r) && (status_code r <? 600)
  then Raise (RequestException (http_error r))
  else Ok tt.

(** *** Dates *)

(** Year, month and day of a proleptic Gregorian ordinal (day 1 is
    0001-01-01), counting in 400-year eras from a first of March. *)
Definition civil_of_ordinal (n : Z) : Z * Z * Z :=
  let z := n + 305 in
  let era := z / 146097 in
  let doe := z - era * 146097 in
  let yoe := (doe - doe / 1460 + doe / 36524 - doe / 146096) / 365 in
  let doy := doe - (365 * yoe + yoe / 4 - yoe / 100) in
  let mp := (5 * doy + 2) / 153 in
  let d := doy - (153 * mp + 2) / 5 + 1 in
  let m := if mp <? 10 then mp + 3 else mp - 9 in
  let y := yoe + era * 400 + (if m <=? 2 then 1 else 0) in
  (y, m, d).

(** Decimal digits, zero-padded to [width]. *)
Definition zero_pad (width : nat) (n : Z) : string :=
  let s := pretty n in
  String.concat "" (replicate (width - String.length s) "0") +:+ s.

(** [date.isoformat()]. *)
Definition isoformat (n : Z) : string :=
  let '(y, m, d) := civil_of_ordinal n in
  zero_pad 4 y +:+ "-" +:+ zero_pad 2 m +:+ "-" +:+ zero_pad 2 d.

(** ** What both scripts share *)

Definition CONFIG_FILE : string := "games_discord_config.json".

(** [load_config], with the two literals of its default configuration as
    parameters: they are all that differs between the two scripts. *)
Definition load_config_from (api_key0 webhook_url0 : string) : M json :=
  found <~ config_exists ;;
  loaded <~
    (if found : bool then
       try_except
         (v <~ read_config ;; ret (Some v))
         (fun e =>
            match e with
            | JSONDecodeError =>
                Some (print ("Error: " +:+ CONFIG_FILE
                               +:+ " is corrupted. Creating a new one.") ;;;
                      ret None)
            | _ => None
            end)
     else ret None) ;;
  match loaded with
  | Some v => ret v
  | None =>
      let config : pydict :=
        [ ("rawg_api_key", JStr api_key0);
          ("discord_webhook_url", JStr webhook_url0) ] in
      key <~ input "Enter your RAWG.io API key: " ;;
      let config := dict_set "rawg_api_key" (JStr key) config in
      url <~ input "Enter your Discord webhook URL: " ;;
      let config := dict_set "discord_webhook_url" (JStr url) config in
      write_config (JDict config) ;;;
      ret (JDict config)
  end.

Definition fetch_upcoming_games (api_key : json) (count : json) : M json :=
  t <~ today ;;
  let future_date := t + 180 in
  let today_str := isoformat t in
  let future_str := isoformat future_date in
  let url := JStr "https://api.rawg.io/api/games" in
  let params : pydict :=
    [ ("key", api_key);
      ("dates", JStr (today_str +:+ "," +:+ future_str));
      ("ordering", JStr "released");
      ("page_size", count) ] in
  try_except
    (response <~ requests_get url params ;;
     lift (raise_for_status response) ;;;
     data <~ lift (json_result response) ;;
     lift (py_get data "results" (JList [])))
    (fun e =>
       match e with
       | RequestException msg =>
           Some (print ("Error fetching games from RAWG.io: " +:+ msg) ;;;
                 ret (JList []))
       | _ => None
       end).

Definition send_to_discord (webhook_url : json) (payload : json) : M bool :=
  let headers : pydict := [("Content-Type", JStr "application/json")] in
  try_except
    (response <~ requests_post webhook_url headers payload ;;
     lift (raise_for_status response) ;;;
     ret true)
    (fun e =>
       match e with
       | RequestException msg =>
           Some (print ("Error sending message to Discord: " +:+ msg) ;;;
                 ret false)
       | _ => None
       end).

(** The check of [main] on the loaded configuration:
    [not config["rawg_api_key"] or not config["discord_webhook_url"]]. *)
Definition credentials_missing (config : json) : res bool :=
  key <- py_getitem config "rawg_api_key" ;;
  if negb (py_truthy key) then Ok true
  else
    url <- py_getitem config "discord_webhook_url" ;;
    Ok (negb (py_truthy url)).

Module VariantA.
Section Script.
Variable py_repr : json -> string.

Definition embed0 : pydict :=
  [ ("title", JStr (video_game_A +:+ " Upcoming Game Releases " +:+ video_game_A));
    ("color", JInt discord_blue);
    ("description", JStr "Here are the upcoming game releases:");
    ("fields", JList []) ].

(** The field of one record. *)
Definition game_field (game : json) : res json :=
  name <- py_get game "name" (JStr "Unknown Title") ;;
  release_date <- py_get game "released" (JStr "TBA") ;;
  platforms <- platforms_of game ;;
  Ok (JDict
    [ ("name", JStr ("**" +:+ py_str py_repr name +:+ "**"));
      ("value", JStr
         (calendar_A +:+ " Release Date: **" +:+ py_str py_repr release_date
            +:+ "**" +:+ nl
            +:+ (if py_truthy (JStr platforms)
                 then video_game_A +:+ " Platforms: " +:+ platforms
                 else ""))) ]).

(** The body of the loop. *)
Definition add_game (embed : pydict) (game : json) : res pydict :=
  field <- game_field game ;;
  dict_append "fields" field embed.

(** [current_time] is
    [datetime.datetime.now().strftime("%Y-%m-%d %H:%M:%S")]. *)
Definition footer (current_time : string) : json :=
  JDict [("text", JStr ("Data from RAWG.io " +:+ bullet_A +:+ " Generated on "
                          +:+ current_time))].

Definition format_discord_message (current_time : string) (games : json)
    : res json :=
  if negb (py_truthy games) then Ok no_games
  else
    items <- py_iter games ;;
    embed <- for_each add_game items embed0 ;;
    let embed := dict_set "footer" (footer current_time) embed in
    Ok (JDict [("embeds", JList [JDict embed])]).

Definition load_config : M json :=
  load_config_from
    "d430c2ba8e9146d7af53c78d27ba9a57"
    "https://discord.com/api/webhooks/1326943556698640455/CrfsqFW9DohoFB-Fu-z3Dl17uOHnnMN0XJ1xdt4klALd9JcNsEQ4OSNoXxpYkBXvq84Z".

Definition main : M unit :=
  print "Games to Discord Webhook" ;;;
  print "------------------------" ;;;
  config <~ load_config ;;
  missing <~ lift (credentials_missing config) ;;
  if missing : bool then
    print "Error: Missing API key or webhook URL. Please update the configuration."
  else
    print "Fetching upcoming games..." ;;;
    api_key <~ lift (py_getitem config "rawg_api_key") ;;
    games <~ fetch_upcoming_games api_key (JInt 20) ;;
    if negb (py_truthy games) then
      print "No games found or error occurred."
    else
      n <~ lift (py_len games) ;;
      print ("Found " +:+ pretty n +:+ " upcoming games.") ;;;
      print "Formatting message for Discord..." ;;;
      current_time <~ now ;;
      discord_payload <~ lift (format_discord_message current_time games) ;;
      print "Sending message to Discord..." ;;;
      webhook_url <~ lift (py_getitem config "discord_webhook_url") ;;
      sent <~ send_to_discord webhook_url discord_payload ;;
      if sent : bool then print "Success! Message sent to Discord."
      else print "Failed to send message to Discord.".
End Script.
End VariantA.

Module VariantB.
Section Script.
Variable py_repr : json -> string.

Definition main_embed : pydict :=
  [ ("title", JStr (video_game +:+ " Upcoming Game Releases " +:+ video_game));
    ("color", JInt discord_blue);
    ("description", JStr "Here are the upcoming game releases with screenshots:") ].

Definition release_field (release_date : json) : json :=
  JDict [ ("name", JStr "Release Date");
          ("value", JStr (calendar +:+ " **" +:+ py_str py_repr release_date +:+ "**"));
          ("inline", JBool true) ].

Definition platforms_field (platforms : string) : json :=
  JDict [ ("name", JStr "Platforms");
          ("value", JStr (video_game +:+ " " +:+ platforms));
          ("inline", JBool true) ].

Definition no_screenshot : json :=
  JDict [("text", JStr "No screenshot available for this game")].

(** [screenshots[game_id]] when [game_id in screenshots and
    screenshots[game_id]], nothing otherwise; an unhashable id raises. *)
Definition screenshot_of (screenshots : gmap pykey json) (game_id : json)
    : res (option json) :=
  k <- py_key game_id ;;
  match screenshots !! k with
  | Some url => Ok (if py_truthy url then Some url else None)
  | None => Ok None
  end.

(** The embed of one record. *)
Definition game_embed (screenshots : gmap pykey json) (game : json) : res json :=
  game_id <- py_get game "id" JNull ;;
  name <- py_get game "name" (JStr "Unknown Title") ;;
  release_date <- py_get game "released" (JStr "TBA") ;;
  platforms <- platforms_of game ;;
  let game_embed : pydict :=
    [ ("title", name);
      ("color", JInt game_color);
      ("fields", JList [release_field release_date]) ] in
  game_embed <-
    (if py_truthy (JStr platforms)
     then dict_append "fields" (platforms_field platforms) game_embed
     else Ok game_embed) ;;
  shot <- screenshot_of screenshots game_id ;;
  let game_embed :=
    match shot with
    | Some url => dict_set "image" (JDict [("url", url)]) game_embed
    | None => dict_set "footer" no_screenshot game_embed
    end in
  Ok (JDict game_embed).

(** The body of the loop: [embeds.append(game_embed)]. *)
Definition add_game (screenshots : gmap pykey json) (embeds : list json)
    (game : json) : res (list json) :=
  e <- game_embed screenshots game ;;
  Ok (embeds ++ [e]).

(** [current_time] is
    [datetime.datetime.now().strftime("%Y-%m-%d %H:%M:%S")]. *)
Definition footer (current_time : string) : json :=
  JDict [("text", JStr ("Data from RAWG.io " +:+ bullet +:+ " Generated on "
                          +:+ current_time))].

(** [embeds[0]["footer"] = footer]. *)
Definition set_header_footer (current_time : string) (embeds : list json)
    : res (list json) :=
  match embeds with
  | JDict e :: rest => Ok (JDict (dict_set "footer" (footer current_time) e) :: rest)
  | _ :: _ => Raise TypeError
  | [] => Raise KeyError
  end.

Definition format_discord_message (current_time : string) (games : json)
    (screenshots : gmap pykey json) : res json :=
  if negb (py_truthy games) then Ok no_games
  else
    let embeds := [JDict main_embed] in
    first9 <- py_slice_to 9 games ;;
    items <- py_iter first9 ;;
    embeds <- for_each (add_game screenshots) items embeds ;;
    embeds <- set_header_footer current_time embeds ;;
    Ok (JDict [("embeds", JList embeds)]).

Definition load_config : M json := load_config_from "" "".

Definition fetch_game_screenshot (api_key : json) (game_id : json) : M json :=
  let url :=
    JStr ("https://api.rawg.io/api/games/" +:+ py_str py_repr game_id
            +:+ "/screenshots") in
  let params : pydict := [("key", api_key)] in
  try_except
    (response <~ requests_get url params ;;
     lift (raise_for_status response) ;;;
     data <~ lift (json_result response) ;;
     results <~ lift (py_get data "results" (JList [])) ;;
     if py_truthy results then
       n <~ lift (py_len results) ;;
       if bool_decide (0 < n)%nat then
         first <~ lift (py_first results) ;;
         lift (py_get first "image" JNull)
       else ret JNull
     else ret JNull)
    (fun e =>
       match e with
       | RequestException msg =>
           Some (print ("Error fetching screenshot for game "
                          +:+ py_str py_repr game_id +:+ ": " +:+ msg) ;;;
                 ret JNull)
       | _ => None
       end).

(** The body of the loop of [main] that collects the screenshots. *)
Definition collect_screenshot (config : json) (screenshots : gmap pykey json)
    (game : json) : M (gmap pykey json) :=
  game_id <~ lift (py_get game "id" JNull) ;;
  if py_truthy game_id then
    name <~ lift (py_get game "name" (JStr "Unknown")) ;;
    print ("  Fetching screenshot for: " +:+ py_str py_repr name) ;;;
    api_key <~ lift (py_getitem config "rawg_api_key") ;;
    screenshot_url <~ fetch_game_screenshot api_key game_id ;;
    if py_truthy screenshot_url then
      k <~ lift (py_key game_id) ;;
      ret (<[k := screenshot_url]> screenshots)
    else
      name <~ lift (py_get game "name" (JStr "Unknown")) ;;
      print ("  No screenshot found for: " +:+ py_str py_repr name) ;;;
      ret screenshots
  else ret screenshots.

Definition main : M unit :=
  print "Games to Discord Webhook with Screenshots" ;;;
  print "----------------------------------------" ;;;
  config <~ load_config ;;
  missing <~ lift (credentials_missing config) ;;
  if missing : bool then
    print "Error: Missing API key or webhook URL. Please update the configuration."
  else
    print "Fetching upcoming games..." ;;;
    api_key <~ lift (py_getitem config "rawg_api_key") ;;
    games <~ fetch_upcoming_games api_key (JInt 20) ;;
    if negb (py_truthy games) then
      print "No games found or error occurred."
    else
      n <~ lift (py_len games) ;;
      print ("Found " +:+ pretty n +:+ " upcoming games.") ;;;
      print "Fetching screenshots for games..." ;;;
      items <~ lift (py_iter games) ;;
      screenshots <~ for_each_M (collect_screenshot config) items ∅ ;;
      n <~ lift (py_len games) ;;
      print ("Found screenshots for " +:+ pretty (size screenshots) +:+ " out of "
               +:+ pretty n +:+ " games.") ;;;
      print "Formatting message for Discord..." ;;;
      current_time <~ now ;;
      discord_payload <~
        lift (format_discord_message current_time games screenshots) ;;
      print "Sending message to Discord..." ;;;
      webhook_url <~ lift (py_getitem config "discord_webhook_url") ;;
      sent <~ send_to_discord webhook_url discord_payload ;;
      if sent : bool then print "Success! Message with screenshots sent to Discord."
      else print "Failed to send message to Discord.".
End Script.
End VariantB.

(** ** Game records as the catalog sends them *)

(** A list of records, as the value the formatter receives. *)
Definition games_of (records : list pydict) : json := JList (JDict <$> records).

(** An entry of a record's platforms list: an object whose ["platform"] is
    missing or false, or is an object whose ["name"], if any, is a string. *)
Definition platform_entry_ok (p : json) : bool :=
  match p with
  | JDict d =>
      match dict_get "platform" d with
      | None => true
      | Some c =>
          if py_truthy c then
            match c with
            | JDict v =>
                match dict_get "name" v with
                | None | Some (JStr _) => true
                | Some _ => false
                end
            | _ => false
            end
          else true
      end
  | _ => false
  end.

(** The platforms of a record: missing, false ([null], an empty list), or
    a list of such entries. *)
Definition platforms_ok (game : pydict) : bool :=
  match dict_get "platforms" game with
  | None => true
  | Some pl =>
      if py_truthy pl then
        match pl with
        | JList l => forallb platform_entry_ok l
        | _ => false
        end
      else true
  end.

(** The id of a record: missing, or a value that can key a dict. *)
Definition id_ok (game : pydict) : bool :=
  match dict_get "id" game with
  | Some (JList _) | Some (JDict _) => false
  | _ => true
  end.

(** A record Variant B can format. *)
Definition record_ok (game : pydict) : bool := platforms_ok game && id_ok game.

(** The platforms of a record are null or not there at all. *)
Definition platforms_null (game : pydict) : Prop :=
  dict_get "platforms" game = None \/ dict_get "platforms" game = Some JNull.

(** The record's name and release date as the message shows them. *)
Definition shown_name (py_repr : json -> string) (game : pydict) : string :=
  py_str py_repr (default (JStr "Unknown Title") (dict_get "name" game)).
Definition shown_release (py_repr : json -> string) (game : pydict) : string :=
  py_str py_repr (default (JStr "TBA") (dict_get "released" game)).

(** The screenshot dict holds a URL for the record's id: an entry under
    the id whose value is not empty. *)
Definition has_screenshot (screenshots : gmap pykey json) (game : pydict)
    (url : json) : Prop :=
  exists k, py_key (default JNull (dict_get "id" game)) = Ok k
            /\ screenshots !! k = Some url /\ py_truthy url = true.

(** The two mock records of the end-to-end scenario, as written there, and
    the first one with its platform in the catalog's shape. *)
Definition mock_foo : pydict :=
  [ ("id", JInt 1); ("name", JStr "Foo"); ("released", JStr "2025-03-01");
    ("platforms", JList [JStr "PC"]) ].
Definition mock_bar : pydict :=
  [ ("id", JInt 2); ("name", JStr "Bar"); ("released", JStr "TBA");
    ("platforms", JNull) ].
Definition mock_foo_catalog : pydict :=
  [ ("id", JInt 1); ("name", JStr "Foo"); ("released", JStr "2025-03-01");
    ("platforms", JList [JDict [("platform", JDict [("name", JStr "PC")])]]) ].

(** *** The shape of the messages *)

(** The platforms phrase of a field of Variant A: nothing for no platform. *)
Definition platforms_line (platforms : string) : string :=
  if String.eqb platforms "" then ""
  else video_game_A +:+ " Platforms: " +:+ platforms.

(** A field of Variant A showing a name, a release date and platforms. *)
Definition field_A (name release platforms : string) : json :=
  JDict
    [ ("name", JStr ("**" +:+ name +:+ "**"));
      ("value", JStr (calendar_A +:+ " Release Date: **" +:+ release +:+ "**"
                        +:+ nl +:+ platforms_line platforms)) ].

(** The embed of Variant A while its fields are collected, and finished. *)
Definition embed_fields_A (fields : list json) : pydict :=
  [ ("title", JStr (video_game_A +:+ " Upcoming Game Releases " +:+ video_game_A));
    ("color", JInt discord_blue);
    ("description", JStr "Here are the upcoming game releases:");
    ("fields", JList fields) ].

Definition embed_A (fields : list json) (current_time : string) : pydict :=
  (embed_fields_A fields ++ [("footer", VariantA.footer current_time)]).

(** The fields of an embed of Variant B: the release date, and the
    platforms when there are any. *)
Definition fields_B (py_repr : json -> string) (game : pydict) (platforms : string)
    : list json :=
  VariantB.release_field py_repr (default (JStr "TBA") (dict_get "released" game))
    :: (if String.eqb platforms "" then [] else [VariantB.platforms_field platforms]).

(** The embed of a record in Variant B, given its joined platforms and the
    screenshot found for it. *)
Definition embed_B (py_repr : json -> string) (game : pydict) (platforms : string)
    (shot : option json) : pydict :=
  [ ("title", default (JStr "Unknown Title") (dict_get "name" game));
    ("color", JInt game_color);
    ("fields", JList (fields_B py_repr game platforms));
    match shot with
    | Some url => ("image", JDict [("url", url)])
    | None => ("footer", VariantB.no_screenshot)
    end ].

(** The header embed of Variant B, finished. *)
Definition header_B (current_time : string) : json :=
  JDict (VariantB.main_embed ++ [("footer", VariantB.footer current_time)]).

(** *** Requests and worlds to speak about *)

(** The request [fetch_upcoming_games] issues in world [w]. *)
Definition catalog_request (w : world) (api_key count : json) : request :=
  {| rq_method := "GET";
     rq_url := JStr "https://api.rawg.io/api/games";
     rq_params :=
       [ ("key", api_key);
         ("dates", JStr (isoformat (w_today w) +:+ "," +:+ isoformat (w_today w + 180)));
         ("ordering", JStr "released");
         ("page_size", count) ];
     rq_headers := [];
     rq_data := None |}.

(** The request [send_to_discord] issues. *)
Definition webhook_request (webhook_url payload : json) : request :=
  {| rq_method := "POST";
     rq_url := webhook_url;
     rq_params := [];
     rq_headers := [("Content-Type", JStr "application/json")];
     rq_data := Some payload |}.

(** The request, issued now, fails with the error text [msg]: no response
    comes back, or one with a 4xx or 5xx status. *)
Definition request_fails (w : world) (rq : request) (msg : string) : Prop :=
  w_http w (w_sent w) rq = Transport_error msg
  \/ exists r, w_http w (w_sent w) rq = Response r
               /\ 400 <= status_code r < 600 /\ http_error r = msg.

(** The configuration made of the two strings the operator enters. *)
Definition entered_config (key url : string) : json :=
  JDict [("rawg_api_key", JStr key); ("discord_webhook_url", JStr url)].

(** What [load_config] writes to the console when the file is corrupt, and
    when it prompts. *)
Definition corruption_report : out_event :=
  Printed "Error: games_discord_config.json is corrupted. Creating a new one.".
Definition prompts : list out_event :=
  [ Prompted "Enter your RAWG.io API key: ";
    Prompted "Enter your Discord webhook URL: " ].

(** A world at the start of a run on 2025-03-01: nothing printed, nothing
    sent, and a file that can be written and is read back as written. *)
Definition fresh_world (file : option (res json)) (stdin : list string)
    (http : list request -> request -> http_outcome) : world :=
  {| w_config_file := file; w_write := fun config => Written (Ok config);
     w_stdin := stdin; w_stdout := [];
     w_today := 739311; w_now := "2025-03-01 12:00:00";
     w_sent := []; w_http := http |}.

(** Networks: unreachable, and one answering everything with a status and
    an empty JSON object. *)
Definition unreachable : list request -> request -> http_outcome :=
  fun _ _ => Transport_error "Connection refused".
Definition answering (status : Z) : list request -> request -> http_outcome :=
  fun _ _ =>
    Response {| status_code := status; http_error := "HTTP error";
                json_result := Ok (JDict []) |}.

(** World [w] after more console output and more requests, and nothing
    else changed. *)
Definition after (w : world) (output : list out_event) (sent : list request) : world :=
  {| w_config_file := w_config_file w; w_write := w_write w;
        w_stdin := w_stdin w;
     w_stdout := w_stdout w ++ output; w_today := w_today w;
     w_now := w_now w; w_sent := w_sent w ++ sent; w_http := w_http w |}.

(** World [w] after the interactive dialogue of [load_config]: the
    corruption report if there was a file, both prompts, two lines of input
    consumed, and the file as the write left it. *)
Definition after_dialogue (w : world) (file : option (res json)) (rest : list string)
    : world :=
  {| w_config_file := file; w_write := w_write w; w_stdin := rest;
     w_stdout :=
       w_stdout w
         ++ (if w_config_file w is Some _ then [corruption_report] else [])
         ++ prompts;
     w_today := w_today w; w_now := w_now w; w_sent := w_sent w;
     w_http := w_http w |}.

(** *** Answers, screenshot requests, platform names *)

(** The request [fetch_game_screenshot] issues. *)
Definition screenshot_request (py_repr : json -> string) (api_key game_id : json)
    : request :=
  {| rq_method := "GET";
     rq_url := JStr ("https://api.rawg.io/api/games/" +:+ py_str py_repr game_id
                       +:+ "/screenshots");
     rq_params := [("key", api_key)];
     rq_headers := [];
     rq_data := None |}.

(** The request, issued now, is answered by [r], whose status is no 4xx
    or 5xx one. *)
Definition request_answered (w : world) (rq : request) (r : response) : Prop :=
  w_http w (w_sent w) rq = Response r /\ ~ 400 <= status_code r < 600.

(** The record's id is one [main] of Variant B asks a screenshot for. *)
Definition wants_screenshot (game : pydict) : bool :=
  py_truthy (default JNull (dict_get "id" game)).

(** The name a platforms entry of the catalog's shape gives to the joined
    text: none when its ["platform"] is missing or false, else the
    platform's ["name"], or the empty string when it has none. *)
Definition entry_name (p : json) : option string :=
  match p with
  | JDict d =>
      match dict_get "platform" d with
      | Some (JDict v) =>
          if py_truthy (JDict v) then
            match dict_get "name" v with
            | Some (JStr s) => Some s
            | _ => Some ""
            end
          else None
      | _ => None
      end
  | _ => None
  end.

(** A network that answers every request with status 200 and the object
    [{"results": results}]. *)
Definition serving (results : json) : list request -> request -> http_outcome :=
  fun _ _ =>
    Response {| status_code := 200; http_error := "";
                json_result := Ok (JDict [("results", results)]) |}.

(** *** What a message must hold, spelled out *)

(** The platforms text of a record: the names of its platform entries
    joined by a comma and a space; empty without a platforms list. *)
Definition expected_platforms (game : pydict) : string :=
  match dict_get "platforms" game with
  | Some (JList l) => String.concat ", " (omap entry_name l)
  | _ => ""
  end.

(** The field Variant A must make of a record. *)
Definition expected_field_A (py_repr : json -> string) (game : pydict) : json :=
  field_A (shown_name py_repr game) (shown_release py_repr game)
    (expected_platforms game).

(** The URL the screenshot dict holds for a record: the value under the
    record's id, unless it is missing or empty. *)
Definition expected_screenshot (screenshots : gmap pykey json) (game : pydict)
    : option json :=
  match py_key (default JNull (dict_get "id" game)) with
  | Ok k =>
      match screenshots !! k with
      | Some url => if py_truthy url then Some url else None
      | None => None
      end
  | Raise _ => None
  end.

(** The footer of an embed without screenshot. *)
Definition expected_no_screenshot : json :=
  JDict [("text", JStr "No screenshot available for this game")].

(** The embed Variant B must make of a record: title, colour 0x3498DB, the
    release date field, the platforms field if there is a platforms text,
    and the image or else the footer. *)
Definition expected_entries_B (py_repr : json -> string)
    (screenshots : gmap pykey json) (game : pydict) : pydict :=
    [ ("title", default (JStr "Unknown Title") (dict_get "name" game));
      ("color", JInt 3447003);
      ("fields", JList
         (JDict [ ("name", JStr "Release Date");
                  ("value", JStr (bytes [240; 159; 147; 133]%N +:+ " **"
                                    +:+ shown_release py_repr game +:+ "**"));
                  ("inline", JBool true) ]
            :: (if String.eqb (expected_platforms game) "" then []
                else [ JDict [ ("name", JStr "Platforms");
                               ("value", JStr (bytes [240; 159; 142; 174]%N +:+ " "
                                                 +:+ expected_platforms game));
                               ("inline", JBool true) ] ])));
      match expected_screenshot screenshots game with
      | Some url => ("image", JDict [("url", url)])
      | None => ("footer", expected_no_screenshot)
      end ].

Definition expected_embed_B (py_repr : json -> string)
    (screenshots : gmap pykey json) (game : pydict) : json :=
  JDict (expected_entries_B py_repr screenshots game).

(** The header embed Variant B must put first. *)
Definition expected_header_B (current_time : string) : json :=
  JDict
    [ ("title", JStr (bytes [240; 159; 142; 174]%N +:+ " Upcoming Game Releases "
                        +:+ bytes [240; 159; 142; 174]%N));
      ("color", JInt 7506394);
      ("description", JStr "Here are the upcoming game releases with screenshots:");
      ("footer", JDict [("text", JStr ("Data from RAWG.io " +:+ bytes [226; 128; 162]%N
                                        +:+ " Generated on " +:+ current_time))]) ].

(** Ten records as the data model writes them, platforms as name strings. *)
Definition ten_named : list pydict := replicate 10 mock_foo.

(** *** Screenshot lookups, spelled out *)

(** How the catalog answers the screenshot request for a game: it fails with
    an error text, or it is answered and [image] is the first result's
    image ([null] when there is no result or no image). *)
Inductive shot_answer : Type :=
| Shot_fails (msg : string)
| Shot_found (image : json).

(** The outcome [o] of a screenshot request is the answer [a]. *)
Definition answers_screenshot (o : http_outcome) (a : shot_answer) : Prop :=
  match a with
  | Shot_fails msg =>
      o = Transport_error msg
      \/ exists r, o = Response r /\ 400 <= status_code r < 600 /\ http_error r = msg
  | Shot_found image =>
      exists r data,
        o = Response r /\ ~ 400 <= status_code r < 600
        /\ json_result r = Ok (JDict data)
        /\ ((exists first rest,
               dict_get "results" data = Some (JList (JDict first :: rest))
               /\ image = default JNull (dict_get "image" first))
            \/ (py_truthy (default (JList []) (dict_get "results" data)) = false
                /\ image = JNull))
  end.

(** What [main] of Variant B must print while it looks up the screenshot of
    one record: nothing for a record whose id is false; else the record's
    name, the error if the request failed, and a note when nothing was
    found. *)
Definition expected_lookup_output (py_repr : json -> string)
    (answer : json -> shot_answer) (game : pydict) : list out_event :=
  let game_id := default JNull (dict_get "id" game) in
  let name := py_str py_repr (default (JStr "Unknown") (dict_get "name" game)) in
  if py_truthy game_id then
    Printed ("  Fetching screenshot for: " +:+ name)
      :: match answer game_id with
         | Shot_fails msg =>
             [ Printed ("Error fetching screenshot for game "
                          +:+ py_str py_repr game_id +:+ ": " +:+ msg);
               Printed ("  No screenshot found for: " +:+ name) ]
         | Shot_found image =>
             if py_truthy image then []
             else [Printed ("  No screenshot found for: " +:+ name)]
         end
  else [].

(** What the screenshot dict must hold after the lookup for one record: the
    image found, under the record's id, when there is one. *)
Definition expected_store (answer : json -> shot_answer)
    (screenshots : gmap pykey json) (game : pydict) : gmap pykey json :=
  let game_id := default JNull (dict_get "id" game) in
  if py_truthy game_id then
    match answer game_id, py_key game_id with
    | Shot_found image, Ok k =>
        if py_truthy image then <[k := image]> screenshots else screenshots
    | _, _ => screenshots
    end
  else screenshots.

(** The screenshot dict after the lookups for all records, in order. *)
Definition expected_screenshots (answer : json -> shot_answer)
    (records : list pydict) : gmap pykey json :=
  foldl (expected_store answer) ∅ records.

(** The screenshot requests for all records, in order. *)
Definition expected_lookups (py_repr : json -> string) (api_key : json)
    (records : list pydict) : list request :=
  (fun g => screenshot_request py_repr api_key (default JNull (dict_get "id" g)))
    <$> List.filter wants_screenshot records.

(** A record that carries an image, to serve both as a catalog record and
    as a screenshot result. *)
Definition mock_baz : pydict :=
  [ ("id", JInt 3); ("name", JStr "Baz");
    ("image", JStr "https://img.example/3.jpg") ].

(** * Properties *)

(** ** Platforms *)

Lemma py_strs_strings (ss : list string) : py_strs (JStr <$> ss) = Ok ss.
Proof.
  induction ss as [|s ss IH]; [reflexivity|].
  cbn [fmap list_fmap py_strs]. fold (JStr <$> ss). rewrite IH. reflexivity.
Qed.

Lemma platform_names_ok (l : list json) :
  forallb platform_entry_ok l = true ->
  exists ss, platform_names l = Ok (JStr <$> ss).
Proof.
  induction l as [|p l IH]; intros Hl.
  - exists []. reflexivity.
  - cbn [forallb] in Hl. apply andb_prop in Hl as [Hp Hl].
    destruct (IH Hl) as [ss Hss].
    destruct p as [| | | |?|d]; try discriminate.
    cbn [platform_names py_get res_bind].
    unfold platform_entry_ok in Hp.
    destruct (dict_get "platform" d) as [c|]; cbn [from_option id].
    + destruct (py_truthy c) eqn:Hc.
      * destruct c as [| | | |?|v]; try discriminate.
        cbn [py_get res_bind].
        destruct (dict_get "name" v) as [[| | |s| |]|]; try discriminate;
          cbn [from_option id]; rewrite Hss; cbn [res_bind].
        -- exists (s :: ss). reflexivity.
        -- exists ("" :: ss). reflexivity.
      * exists ss. exact Hss.
    + exists ss. exact Hss.
Qed.

Lemma platforms_of_ok (game : pydict) :
  platforms_ok game = true -> exists s, platforms_of (JDict game) = Ok s.
Proof.
  unfold platforms_ok, platforms_of. cbn [py_get res_bind].
  destruct (dict_get "platforms" game) as [pl|]; cbn [from_option id].
  - unfold py_or. destruct (py_truthy pl) eqn:Hpl.
    + destruct pl as [| | | |l|]; try discriminate. intros Hl.
      destruct (platform_names_ok l Hl) as [ss Hss].
      cbn [py_iter res_bind]. rewrite Hss. cbn [res_bind].
      unfold py_join. rewrite py_strs_strings. eauto.
    + intros _. exists "". reflexivity.
  - intros _. exists "". reflexivity.
Qed.

Lemma platforms_null_ok (game : pydict) : platforms_null game -> platforms_ok game = true.
Proof. unfold platforms_ok. intros [-> | ->]; reflexivity. Qed.

(** ** Variant A *)

Section VariantA_facts.
Variable py_repr : json -> string.

Lemma game_field_ok (game : pydict) :
  platforms_ok game = true ->
  exists platforms,
    platforms_of (JDict game) = Ok platforms
    /\ VariantA.game_field py_repr (JDict game)
       = Ok (field_A (shown_name py_repr game) (shown_release py_repr game) platforms).
Proof.
  intros Hok. destruct (platforms_of_ok game Hok) as [platforms Hp].
  exists platforms. split; [exact Hp|].
  unfold VariantA.game_field. rewrite Hp. cbn [py_get res_bind].
  unfold field_A, platforms_line, shown_name, shown_release.
  cbn [py_truthy]. destruct (String.eqb platforms ""); reflexivity.
Qed.

Lemma add_game_appends (fields : list json) (game field : json) :
  VariantA.game_field py_repr game = Ok field ->
  VariantA.add_game py_repr (embed_fields_A fields) game
  = Ok (embed_fields_A (fields ++ [field])).
Proof. intros H. unfold VariantA.add_game. rewrite H. reflexivity. Qed.

Lemma for_each_add_game (records : list pydict) :
  Forall (fun g => platforms_ok g = true) records ->
  forall fields0,
  exists fields,
    for_each (VariantA.add_game py_repr) (JDict <$> records) (embed_fields_A fields0)
    = Ok (embed_fields_A (fields0 ++ fields))
    /\ Forall2 (fun g f => VariantA.game_field py_repr (JDict g) = Ok f)
         records fields.
Proof.
  induction 1 as [|g records Hg _ IH]; intros fields0.
  - exists []. rewrite app_nil_r. split; [reflexivity|constructor].
  - destruct (game_field_ok g Hg) as (platforms & _ & Hf).
    destruct (IH (fields0 ++ [field_A (shown_name py_repr g)
                                (shown_release py_repr g) platforms]))
      as (fields & Hloop & Hall).
    eexists (_ :: fields). split.
    + cbn [fmap list_fmap for_each]. fold (JDict <$> records).
      rewrite (add_game_appends _ _ _ Hf). cbn [res_bind].
      rewrite Hloop, <- app_assoc. reflexivity.
    + constructor; [exact Hf|exact Hall].
Qed.
End VariantA_facts.

(** C4. For the empty list of game records, both variants return exactly
  the plain-text payload [{"content": "No upcoming games found!"}], with
  no embeds, whatever the screenshot mapping of Variant B. *)
Theorem empty_list_plain_text (py_repr : json -> string) (current_time : string)
  (screenshots : gmap pykey json) :
VariantA.format_discord_message py_repr current_time (games_of [])
= Ok (JDict [("content", JStr "No upcoming games found!")])
/\ VariantB.format_discord_message py_repr current_time (games_of []) screenshots
   = Ok (JDict [("content", JStr "No upcoming games found!")]).
Proof. split; reflexivity. Qed.

(** C3, as the code has it. Given the mock record "Foo" with its platform
  in the catalog's shape ([{"platform": {"name": "PC"}}]) and the mock
  record "Bar" with null platforms, Variant A returns one embed with
  exactly two fields: "**Foo**", showing release date 2025-03-01 and
  platform PC, and "**Bar**", showing release date TBA and no platforms
  line. *)
Theorem mock_scenario_catalog_shape (py_repr : json -> string) (current_time : string) :
VariantA.format_discord_message py_repr current_time
  (games_of [mock_foo_catalog; mock_bar])
= Ok (JDict [("embeds", JList [JDict (embed_A
    [ JDict [ ("name", JStr "**Foo**");
              ("value", JStr (calendar_A +:+ " Release Date: **2025-03-01**" +:+ nl
                                +:+ video_game_A +:+ " Platforms: PC")) ];
      JDict [ ("name", JStr "**Bar**");
              ("value", JStr (calendar_A +:+ " Release Date: **TBA**" +:+ nl)) ] ]
    current_time)])]).
Proof. reflexivity. Qed.

(** C3, as stated, fails: on the two mock records as the scenario writes
  them, with ["platforms": ["PC"]], Variant A raises [AttributeError]
  (a string has no [get]) and returns no message. *)
Lemma mock_scenario_raises :
VariantA.format_discord_message (fun _ => "") "2025-01-01 00:00:00"
  (games_of [mock_foo; mock_bar])
= Raise AttributeError.
Proof. reflexivity. Qed.

(** ** Variant B *)

Section VariantB_facts.
Variable py_repr : json -> string.
Variable screenshots : gmap pykey json.

Lemma id_ok_key (game : pydict) :
  id_ok game = true ->
  exists k, py_key (default JNull (dict_get "id" game)) = Ok k.
Proof.
  unfold id_ok.
  destruct (dict_get "id" game) as [[]|]; try discriminate; intros _;
    cbn [from_option id py_key]; eauto.
Qed.

Lemma screenshot_of_spec (game : pydict) :
  id_ok game = true ->
  exists shot,
    VariantB.screenshot_of screenshots (default JNull (dict_get "id" game)) = Ok shot
    /\ forall url, shot = Some url <-> has_screenshot screenshots game url.
Proof.
  intros Hid. destruct (id_ok_key game Hid) as [k Hk].
  unfold VariantB.screenshot_of, has_screenshot. rewrite Hk. cbn [res_bind].
  destruct (screenshots !! k) as [u|] eqn:Hu.
  - destruct (py_truthy u) eqn:Ht.
    + exists (Some u). split; [reflexivity|]. intros url. split.
      * intros [= <-]. exists k. auto.
      * intros (k' & [= <-] & Hl & _). congruence.
    + exists None. split; [reflexivity|]. intros url. split; [discriminate|].
      intros (k' & [= <-] & Hl & Ht'). congruence.
  - exists None. split; [reflexivity|]. intros url. split; [discriminate|].
    intros (k' & [= <-] & Hl & _). congruence.
Qed.

Lemma game_embed_ok (game : pydict) :
  record_ok game = true ->
  exists platforms shot,
    platforms_of (JDict game) = Ok platforms
    /\ (forall url, shot = Some url <-> has_screenshot screenshots game url)
    /\ VariantB.game_embed py_repr screenshots (JDict game)
       = Ok (JDict (embed_B py_repr game platforms shot)).
Proof.
  unfold record_ok. intros [Hp Hid]%andb_prop.
  destruct (platforms_of_ok game Hp) as [platforms Hpl].
  destruct (screenshot_of_spec game Hid) as (shot & Hshot & Hspec).
  exists platforms, shot. split; [exact Hpl|]. split; [exact Hspec|].
  unfold VariantB.game_embed. cbn [py_get res_bind].
  rewrite Hpl. cbn [res_bind py_truthy].
  unfold embed_B, fields_B.
  destruct (String.eqb platforms ""); cbn [negb];
    [|change (dict_append "fields" ?f [?a; ?b; ("fields", JList ?l)])
        with (Ok (A := pydict) [a; b; ("fields", JList (l ++ [f]))])];
    cbn [res_bind]; rewrite Hshot; cbn [res_bind];
    destruct shot; reflexivity.
Qed.

Lemma for_each_add_embed (records : list pydict) :
  Forall (fun g => record_ok g = true) records ->
  forall embeds0,
  exists embeds,
    for_each (VariantB.add_game py_repr screenshots) (JDict <$> records) embeds0
    = Ok (embeds0 ++ embeds)
    /\ Forall2 (fun g e => VariantB.game_embed py_repr screenshots (JDict g) = Ok e)
         records embeds.
Proof.
  induction 1 as [|g records Hg _ IH]; intros embeds0.
  - exists []. rewrite app_nil_r. split; [reflexivity|constructor].
  - destruct (game_embed_ok g Hg) as (platforms & shot & _ & _ & He).
    destruct (IH (embeds0 ++ [JDict (embed_B py_repr g platforms shot)]))
      as (embeds & Hloop & Hall).
    eexists (_ :: embeds). split.
    + cbn [fmap list_fmap for_each]. fold (JDict <$> records).
      unfold VariantB.add_game at 1. rewrite He. cbn [res_bind].
      rewrite Hloop, <- app_assoc. reflexivity.
    + constructor; [exact He|exact Hall].
Qed.

(** What Variant B returns on a non-empty list whose first nine records
    it can format. *)
Lemma format_first_nine (current_time : string) (records : list pydict) :
  records <> [] ->
  Forall (fun g => record_ok g = true) (take 9 records) ->
  exists embeds,
    VariantB.format_discord_message py_repr current_time (games_of records)
      screenshots
    = Ok (JDict [("embeds", JList (header_B current_time :: embeds))])
    /\ Forall2 (fun g e => VariantB.game_embed py_repr screenshots (JDict g) = Ok e)
         (take 9 records) embeds.
Proof.
  intros Hne Hok.
  destruct (for_each_add_embed (take 9 records) Hok [JDict VariantB.main_embed])
    as (embeds & Hloop & Hall).
  exists embeds. split; [|exact Hall].
  unfold VariantB.format_discord_message, games_of.
  destruct records as [|g records]; [congruence|].
  cbn [py_truthy fmap list_fmap negb py_slice_to py_iter res_bind].
  fold (JDict <$> records).
  change (JDict g :: (JDict <$> records)) with (JDict <$> (g :: records)).
  rewrite <- fmap_take, Hloop. reflexivity.
Qed.

(** Only the first nine records reach the message. *)
Lemma format_ignores_tail (current_time : string) (records others : list pydict) :
  records <> [] ->
  take 9 others = take 9 records ->
  VariantB.format_discord_message py_repr current_time (games_of others) screenshots
  = VariantB.format_discord_message py_repr current_time (games_of records)
      screenshots.
Proof.
  intros Hne Htake.
  assert (others <> []) as Hne'.
  { intros ->. destruct records; [congruence|discriminate]. }
  unfold VariantB.format_discord_message, games_of.
  destruct records as [|g records]; [congruence|].
  destruct others as [|g' others]; [congruence|].
  cbn [py_truthy fmap list_fmap negb py_slice_to res_bind].
  change (JDict g :: (JDict <$> records)) with (JDict <$> (g :: records)).
  change (JDict g' :: (JDict <$> others)) with (JDict <$> (g' :: others)).
  rewrite <- !fmap_take, Htake. reflexivity.
Qed.
End VariantB_facts.

(** ** The records the formatters accept, exactly *)

Lemma raises_bind {A B} (m : res A) (k : A -> res B) :
  raises m -> raises (res_bind m k).
Proof. intros [e ->]. exists e. reflexivity. Qed.

Lemma for_each_raises {S : Type} (body : S -> json -> res S) (items : list json) :
  Exists (fun x => forall s, raises (body s x)) items ->
  forall s, raises (for_each body items s).
Proof.
  induction 1 as [x items Hx | x items _ IH]; intros s; cbn [for_each].
  - apply raises_bind, Hx.
  - destruct (body s x) as [s'|e]; cbn [res_bind]; [apply IH|by exists e].
Qed.

Lemma platform_names_not_ok (l : list json) :
  forallb platform_entry_ok l = false ->
  raises (names <- platform_names l ;; py_join ", " names).
Proof.
  induction l as [|p l IH]; [discriminate|].
  cbn [forallb]. intros Hl. apply andb_false_iff in Hl.
  destruct (platform_entry_ok p) eqn:Hp.
  - destruct Hl as [|Hl]; [discriminate|]. specialize (IH Hl).
    destruct p as [| | | |?|d]; try discriminate.
    cbn [platform_names py_get res_bind].
    unfold platform_entry_ok in Hp.
    destruct (dict_get "platform" d) as [c|]; cbn [from_option id]; [|exact IH].
    destruct (py_truthy c) eqn:Hc; [|exact IH].
    destruct c as [| | | |?|v]; try discriminate.
    cbn [py_get res_bind].
    destruct (dict_get "name" v) as [[| | |s| |]|]; try discriminate;
      cbn [from_option id];
      (destruct (platform_names l) as [ns|e]; cbn [res_bind] in *;
       [|by exists e]);
      unfold py_join in *; cbn [py_strs];
      (destruct (py_strs ns) as [ss|e]; cbn [res_bind] in *;
       [destruct IH; discriminate|by exists e]).
  - clear Hl IH.
    destruct p as [| | | |?|d];
      try (cbn [platform_names py_get res_bind]; by eexists).
    cbn [platform_names py_get res_bind].
    unfold platform_entry_ok in Hp.
    destruct (dict_get "platform" d) as [c|]; [|discriminate].
    cbn [from_option id].
    destruct (py_truthy c) eqn:Hc; [|discriminate].
    destruct c as [| | | |?|v]; try (cbn [py_get res_bind]; by eexists).
    cbn [py_get res_bind].
    destruct (dict_get "name" v) as [[| | |s| |]|]; try discriminate;
      cbn [from_option id];
      (destruct (platform_names l) as [ns|e]; cbn [res_bind];
       [by eexists|by exists e]).
Qed.

Lemma utf8_chars_nonempty (c : ascii) (s : string) :
  exists h t, utf8_chars (String c s) = h :: t.
Proof.
  cbn [utf8_chars]. destruct (utf8_chars s) as [|h t]; [eauto|].
  destruct (starts_with_continuation h); eauto.
Qed.

Lemma platforms_of_not_ok (game : pydict) :
  platforms_ok game = false -> raises (platforms_of (JDict game)).
Proof.
  unfold platforms_ok, platforms_of. cbn [py_get res_bind].
  destruct (dict_get "platforms" game) as [pl|]; [|discriminate].
  cbn [from_option id]. unfold py_or.
  destruct (py_truthy pl) eqn:Hpl; [|discriminate].
  destruct pl as [| | |s|l|d]; try (intros _; cbn [py_iter res_bind]; by eexists).
  - intros _. destruct s as [|c s]; [discriminate|].
    destruct (utf8_chars_nonempty c s) as (h & t & Hchars).
    cbn [py_iter res_bind]. rewrite Hchars. by eexists.
  - intros Hl. cbn [py_iter res_bind]. exact (platform_names_not_ok l Hl).
  - intros _. destruct d as [|[k v] d]; [discriminate|]. by eexists.
Qed.

Lemma game_field_not_ok (py_repr : json -> string) (game : pydict) :
  platforms_ok game = false -> raises (VariantA.game_field py_repr (JDict game)).
Proof.
  intros H. destruct (platforms_of_not_ok game H) as [e He].
  unfold VariantA.game_field. cbn [py_get res_bind]. rewrite He. by exists e.
Qed.

Lemma game_embed_not_ok (py_repr : json -> string) (screenshots : gmap pykey json)
    (game : pydict) :
  record_ok game = false ->
  raises (VariantB.game_embed py_repr screenshots (JDict game)).
Proof.
  unfold record_ok. intros H.
  unfold VariantB.game_embed. cbn [py_get res_bind].
  destruct (platforms_ok game) eqn:Hp.
  - destruct (platforms_of_ok game Hp) as [platforms ->]. cbn [res_bind].
    cbn [andb] in H. unfold id_ok in H.
    assert (raises (VariantB.screenshot_of screenshots
                      (default JNull (dict_get "id" game)))) as [e He].
    { destruct (dict_get "id" game) as [[]|]; try discriminate; by eexists. }
    destruct (py_truthy (JStr platforms));
      [change (dict_append "fields" ?f [?a; ?b; ("fields", JList ?l)])
         with (Ok (A := pydict) [a; b; ("fields", JList (l ++ [f]))])|];
      cbn [res_bind]; rewrite He; by exists e.
  - destruct (platforms_of_not_ok game Hp) as [e ->]. by exists e.
Qed.

(** Variant A returns a message on a non-empty list exactly when the
    platforms of every record have the catalog's shape; otherwise it
    raises. *)
Theorem variant_a_returns_iff (py_repr : json -> string) (current_time : string)
    (records : list pydict) :
  records <> [] ->
  (exists payload,
     VariantA.format_discord_message py_repr current_time (games_of records)
     = Ok payload)
  <-> Forall (fun g => platforms_ok g = true) records.
Proof.
  intros Hne. split.
  - intros [payload Hfmt].
    destruct (decide (Forall (fun g => platforms_ok g = true) records))
      as [|Hnot]; [done|exfalso].
    apply not_Forall_Exists in Hnot; [|solve_decision].
    assert (Exists (fun x => forall s, raises (VariantA.add_game py_repr s x))
              (JDict <$> records)) as Hex.
    { apply Exists_fmap. eapply Exists_impl; [exact Hnot|].
      intros g Hg s. cbn in Hg. unfold VariantA.add_game.
      apply raises_bind, game_field_not_ok.
      by destruct (platforms_ok g). }
    destruct (for_each_raises _ _ Hex VariantA.embed0) as [e He].
    revert Hfmt. unfold VariantA.format_discord_message, games_of.
    destruct records as [|g records]; [congruence|].
    cbn [py_truthy fmap list_fmap negb py_iter res_bind].
    fold (JDict <$> records).
    change (JDict g :: (JDict <$> records)) with (JDict <$> (g :: records)).
    rewrite He. discriminate.
  - intros Hok.
    destruct (for_each_add_game py_repr records Hok []) as (fields & Hloop & _).
    unfold VariantA.format_discord_message, games_of.
    destruct records as [|g records]; [congruence|].
    cbn [py_truthy fmap list_fmap negb py_iter res_bind].
    fold (JDict <$> records).
    change VariantA.embed0 with (embed_fields_A []).
    change (JDict g :: (JDict <$> records)) with (JDict <$> (g :: records)).
    rewrite Hloop. eauto.
Qed.

Lemma variant_a_returns_iff_witness :
  exists payload,
    VariantA.format_discord_message (fun _ => "") "2025-01-01 00:00:00"
      (games_of [mock_foo_catalog; mock_bar])
    = Ok payload.
Proof.
  apply (variant_a_returns_iff (fun _ => "") "2025-01-01 00:00:00"
           [mock_foo_catalog; mock_bar]); [discriminate|].
  repeat constructor.
Defined.

(** Variant B returns a message on a non-empty list exactly when each of
    its first nine records has platforms in the catalog's shape and an id a
    dict can be keyed by; otherwise it raises. *)
Theorem variant_b_returns_iff (py_repr : json -> string) (current_time : string)
    (screenshots : gmap pykey json) (records : list pydict) :
  records <> [] ->
  (exists payload,
     VariantB.format_discord_message py_repr current_time (games_of records)
       screenshots
     = Ok payload)
  <-> Forall (fun g => record_ok g = true) (take 9 records).
Proof.
  intros Hne. split.
  - intros [payload Hfmt].
    destruct (decide (Forall (fun g => record_ok g = true) (take 9 records)))
      as [|Hnot]; [done|exfalso].
    apply not_Forall_Exists in Hnot; [|solve_decision].
    assert (Exists (fun x => forall s,
                      raises (VariantB.add_game py_repr screenshots s x))
              (JDict <$> take 9 records)) as Hex.
    { apply Exists_fmap. eapply Exists_impl; [exact Hnot|].
      intros g Hg s. cbn in Hg. unfold VariantB.add_game.
      apply raises_bind, game_embed_not_ok.
      by destruct (record_ok g). }
    destruct (for_each_raises _ _ Hex [JDict VariantB.main_embed]) as [e He].
    revert Hfmt. unfold VariantB.format_discord_message, games_of.
    destruct records as [|g records]; [congruence|].
    cbn [py_truthy fmap list_fmap negb py_slice_to py_iter res_bind].
    fold (JDict <$> records).
    change (JDict g :: (JDict <$> records)) with (JDict <$> (g :: records)).
    rewrite <- fmap_take, He. discriminate.
  - intros Hok.
    destruct (format_first_nine py_repr screenshots current_time records Hne Hok)
      as (embeds & Hfmt & _).
    eauto.
Qed.

Lemma variant_b_returns_iff_witness :
  exists payload,
    VariantB.format_discord_message (fun _ => "") "2025-01-01 00:00:00"
      (games_of (replicate 9 mock_bar ++ [mock_foo])) ∅
    = Ok payload.
Proof.
  apply (variant_b_returns_iff (fun _ => "") "2025-01-01 00:00:00" ∅
           (replicate 9 mock_bar ++ [mock_foo])); [discriminate|].
  cbn. repeat constructor.
Defined.

(** ** The formatters, spelled out *)

Lemma platform_names_are_entry_names (l : list json) :
  forallb platform_entry_ok l = true ->
  platform_names l = Ok (JStr <$> omap entry_name l).
Proof.
  induction l as [|p l IH]; intros Hl; [reflexivity|].
  cbn [forallb] in Hl. apply andb_prop in Hl as [Hp Hl].
  specialize (IH Hl).
  destruct p as [| | | |?|d]; try discriminate.
  cbn [platform_names py_get res_bind omap list_omap entry_name].
  unfold platform_entry_ok in Hp.
  destruct (dict_get "platform" d) as [c|]; cbn [from_option id]; [|exact IH].
  destruct (py_truthy c) eqn:Hc.
  - destruct c as [| | | |?|v]; try discriminate.
    rewrite Hc. cbn [py_get res_bind].
    destruct (dict_get "name" v) as [[| | |s| |]|]; try discriminate;
      cbn [from_option id]; rewrite IH; reflexivity.
  - destruct c as [| | | |?|v]; try exact IH. rewrite Hc. exact IH.
Qed.

Section Spelled.
Variable py_repr : json -> string.

Lemma platforms_of_expected (g : pydict) :
  platforms_ok g = true -> platforms_of (JDict g) = Ok (expected_platforms g).
Proof.
  unfold platforms_ok, expected_platforms, platforms_of. cbn [py_get res_bind].
  destruct (dict_get "platforms" g) as [pl|]; cbn [from_option id]; [|reflexivity].
  unfold py_or. destruct (py_truthy pl) eqn:Hpl.
  - destruct pl as [| | | |l|]; try discriminate. intros Hl.
    cbn [py_iter res_bind]. rewrite (platform_names_are_entry_names _ Hl).
    cbn [res_bind]. unfold py_join. rewrite py_strs_strings. reflexivity.
  - intros _. destruct pl as [| | | |[|]|]; try reflexivity. discriminate.
Qed.

Lemma game_field_expected (g : pydict) :
  platforms_ok g = true ->
  VariantA.game_field py_repr (JDict g) = Ok (expected_field_A py_repr g).
Proof.
  intros Hok. unfold VariantA.game_field.
  rewrite (platforms_of_expected g Hok). cbn [py_get res_bind].
  unfold expected_field_A, field_A, platforms_line, shown_name, shown_release.
  cbn [py_truthy]. destruct (String.eqb (expected_platforms g) ""); reflexivity.
Qed.

Lemma screenshot_of_expected (screenshots : gmap pykey json) (g : pydict) :
  id_ok g = true ->
  VariantB.screenshot_of screenshots (default JNull (dict_get "id" g))
  = Ok (expected_screenshot screenshots g).
Proof.
  intros Hid. destruct (id_ok_key g Hid) as [k Hk].
  unfold VariantB.screenshot_of, expected_screenshot. rewrite Hk. cbn [res_bind].
  destruct (screenshots !! k) as [u|]; reflexivity.
Qed.

Lemma game_embed_expected (screenshots : gmap pykey json) (g : pydict) :
  record_ok g = true ->
  VariantB.game_embed py_repr screenshots (JDict g)
  = Ok (expected_embed_B py_repr screenshots g).
Proof.
  unfold record_ok. intros [Hp Hid]%andb_prop.
  unfold VariantB.game_embed. cbn [py_get res_bind].
  rewrite (platforms_of_expected g Hp). cbn [res_bind py_truthy].
  unfold expected_embed_B, expected_entries_B, shown_release.
  destruct (String.eqb (expected_platforms g) ""); cbn [negb];
    [|change (dict_append "fields" ?f [?a; ?b; ("fields", JList ?l)])
        with (Ok (A := pydict) [a; b; ("fields", JList (l ++ [f]))])];
    cbn [res_bind]; rewrite (screenshot_of_expected screenshots g Hid);
    cbn [res_bind]; destruct (expected_screenshot screenshots g); reflexivity.
Qed.

Lemma Forall2_results {A B : Type} (f : A -> res B) (h : A -> B) (l : list A)
    (es : list B) :
  Forall2 (fun x e => f x = Ok e) l es ->
  Forall (fun x => f x = Ok (h x)) l ->
  es = h <$> l.
Proof.
  induction 1 as [|x e l es Hx _ IH]; intros Hall; [reflexivity|].
  apply Forall_cons in Hall as [Hh Hall].
  cbn [fmap list_fmap]. f_equal; [congruence|by apply IH].
Qed.

Lemma format_a_expected (current_time : string) (records : list pydict) :
  records <> [] ->
  Forall (fun g => platforms_ok g = true) records ->
  VariantA.format_discord_message py_repr current_time (games_of records)
  = Ok (JDict [("embeds",
          JList [JDict (embed_A (expected_field_A py_repr <$> records)
                          current_time)])]).
Proof.
  intros Hne Hok.
  destruct (for_each_add_game py_repr records Hok []) as (fields & Hloop & Hall).
  assert (fields = expected_field_A py_repr <$> records) as ->.
  { eapply Forall2_results; [exact Hall|].
    eapply Forall_impl; [exact Hok|]. intros g Hg. by apply game_field_expected. }
  unfold VariantA.format_discord_message, games_of.
  destruct records as [|g records]; [congruence|].
  cbn [py_truthy fmap list_fmap negb py_iter res_bind].
  fold (JDict <$> records). fold (expected_field_A py_repr <$> records).
  change VariantA.embed0 with (embed_fields_A []).
  change (JDict g :: (JDict <$> records)) with (JDict <$> (g :: records)).
  rewrite Hloop. reflexivity.
Qed.

Lemma format_b_expected (current_time : string) (screenshots : gmap pykey json)
    (records : list pydict) :
  records <> [] ->
  Forall (fun g => record_ok g = true) (take 9 records) ->
  VariantB.format_discord_message py_repr current_time (games_of records) screenshots
  = Ok (JDict [("embeds",
          JList (expected_header_B current_time
                   :: (expected_embed_B py_repr screenshots <$> take 9 records)))]).
Proof.
  intros Hne Hok.
  destruct (format_first_nine py_repr screenshots current_time records Hne Hok)
    as (embeds & Hfmt & Hall).
  assert (embeds = expected_embed_B py_repr screenshots <$> take 9 records) as ->.
  { eapply Forall2_results; [exact Hall|].
    eapply Forall_impl; [exact Hok|]. intros g Hg. by apply game_embed_expected. }
  exact Hfmt.
Qed.

Lemma format_a_returns_only_ok (current_time : string) (records : list pydict)
    (payload : json) :
  VariantA.format_discord_message py_repr current_time (games_of records) = Ok payload ->
  Forall (fun g => platforms_ok g = true) records.
Proof.
  intros Hfmt.
  destruct (decide (Forall (fun g => platforms_ok g = true) records))
    as [|Hnot]; [done|exfalso].
  apply not_Forall_Exists in Hnot; [|solve_decision].
  assert (Exists (fun x => forall s, raises (VariantA.add_game py_repr s x))
            (JDict <$> records)) as Hex.
  { apply Exists_fmap. eapply Exists_impl; [exact Hnot|].
    intros g Hg s. cbn in Hg. unfold VariantA.add_game.
    apply raises_bind, game_field_not_ok.
    by destruct (platforms_ok g). }
  destruct (for_each_raises _ _ Hex VariantA.embed0) as [e He].
  revert Hfmt. unfold VariantA.format_discord_message, games_of.
  destruct records as [|g records]; [by inversion Hnot|].
  cbn [py_truthy fmap list_fmap negb py_iter res_bind].
  fold (JDict <$> records).
  change (JDict g :: (JDict <$> records)) with (JDict <$> (g :: records)).
  rewrite He. discriminate.
Qed.

Lemma format_b_returns_only_ok (current_time : string)
    (screenshots : gmap pykey json) (records : list pydict) (payload : json) :
  VariantB.format_discord_message py_repr current_time (games_of records) screenshots
  = Ok payload ->
  Forall (fun g => record_ok g = true) (take 9 records).
Proof.
  intros Hfmt.
  destruct (decide (Forall (fun g => record_ok g = true) (take 9 records)))
    as [|Hnot]; [done|exfalso].
  apply not_Forall_Exists in Hnot; [|solve_decision].
  assert (Exists (fun x => forall s,
                    raises (VariantB.add_game py_repr screenshots s x))
            (JDict <$> take 9 records)) as Hex.
  { apply Exists_fmap. eapply Exists_impl; [exact Hnot|].
    intros g Hg s. cbn in Hg. unfold VariantB.add_game.
    apply raises_bind, game_embed_not_ok.
    by destruct (record_ok g). }
  destruct (for_each_raises _ _ Hex [JDict VariantB.main_embed]) as [e He].
  revert Hfmt. unfold VariantB.format_discord_message, games_of.
  destruct records as [|g records]; [by inversion Hnot|].
  cbn [py_truthy fmap list_fmap negb py_slice_to py_iter res_bind].
  fold (JDict <$> records).
  change (JDict g :: (JDict <$> records)) with (JDict <$> (g :: records)).
  rewrite <- fmap_take, He. discriminate.
Qed.

Lemma Forall_undelete {A : Type} (P : A -> Prop) (l : list A) (i : nat) (x : A) :
  l !! i = Some x -> P x -> Forall P (delete i l) -> Forall P l.
Proof.
  revert i. induction l as [|y l IH]; intros [|i] Hi Hx Hrest; try discriminate.
  - injection Hi as ->. by constructor.
  - cbn in Hrest. apply Forall_cons in Hrest as [Hy Hrest].
    constructor; [exact Hy|]. by apply (IH i).
Qed.
End Spelled.

(** ** The configuration store *)

Lemma load_config_parsed (api_key0 webhook_url0 : string) (w : world) (v : json) :
w_config_file w = Some (Ok v) ->
load_config_from api_key0 webhook_url0 w = (Ok v, w).
Proof.
intros Hfile.
unfold load_config_from, bind, config_exists, try_except, read_config, ret.
rewrite Hfile. cbn. rewrite Hfile. reflexivity.
Qed.

Lemma load_config_other_error (api_key0 webhook_url0 : string) (w : world) (e : exn) :
w_config_file w = Some (Raise e) ->
e <> JSONDecodeError ->
load_config_from api_key0 webhook_url0 w = (Raise e, w).
Proof.
intros Hfile He.
unfold load_config_from, bind, config_exists, try_except, read_config, ret.
rewrite Hfile. cbn. rewrite Hfile. destruct e; try reflexivity. congruence.
Qed.

Lemma load_config_interactive (api_key0 webhook_url0 : string) (w : world)
    (key url : string) (rest : list string) :
  w_config_file w = None \/ w_config_file w = Some (Raise JSONDecodeError) ->
  w_stdin w = key :: url :: rest ->
  load_config_from api_key0 webhook_url0 w
  = match w_write w (entered_config key url) with
    | Written reads_as =>
        (Ok (entered_config key url), after_dialogue w (Some reads_as) rest)
    | Write_fails e remains => (Raise e, after_dialogue w remains rest)
    end.
Proof.
  intros Hfile Hin.
  unfold load_config_from, bind, config_exists, try_except, read_config, ret,
    print, input, emit, write_config, bind, after_dialogue.
  destruct Hfile as [Hfile | Hfile]; rewrite Hfile; cbn; rewrite ?Hfile, Hin; cbn;
    fold (entered_config key url);
    destruct (w_write w (entered_config key url));
    rewrite <- ?app_assoc; reflexivity.
Qed.

(** C2, as the code has it. When [json.load] rejects the content of the
    configuration file with [JSONDecodeError], [load_config] (of either
    script) reports the corruption and prompts for both fields; the operator
    answering both prompts and the file being written, it returns the entered
    configuration and raises nothing. *)
Theorem corrupt_config_falls_back (w : world) (key url : string) (rest : list string)
    (reads_as : res json) :
  w_config_file w = Some (Raise JSONDecodeError) ->
  w_stdin w = key :: url :: rest ->
  w_write w (entered_config key url) = Written reads_as ->
  (exists w',
     VariantA.load_config w = (Ok (entered_config key url), w')
     /\ w_stdout w' = w_stdout w ++ corruption_report :: prompts
     /\ w_stdin w' = rest)
  /\ (exists w',
        VariantB.load_config w = (Ok (entered_config key url), w')
        /\ w_stdout w' = w_stdout w ++ corruption_report :: prompts
        /\ w_stdin w' = rest).
Proof.
  intros Hfile Hin Hwrite.
  split; eexists;
    (split;
     [unfold VariantA.load_config, VariantB.load_config;
      rewrite (load_config_interactive _ _ w key url rest (or_intror Hfile) Hin),
        Hwrite; reflexivity
     |unfold after_dialogue; cbn; rewrite Hfile; auto]).
Qed.

Lemma corrupt_config_falls_back_witness :
  exists w',
    VariantA.load_config
      (fresh_world (Some (Raise JSONDecodeError)) ["my-key"; "https://hook.example/1"]
         unreachable)
    = (Ok (entered_config "my-key" "https://hook.example/1"), w')
    /\ w_stdout w' = corruption_report :: prompts.
Proof.
  destruct (corrupt_config_falls_back
              (fresh_world (Some (Raise JSONDecodeError))
                 ["my-key"; "https://hook.example/1"] unreachable)
              "my-key" "https://hook.example/1" []
              (Ok (entered_config "my-key" "https://hook.example/1"))
              eq_refl eq_refl eq_refl)
    as ((w' & Hrun & Hout & _) & _).
  exists w'. split; [exact Hrun|exact Hout].
Defined.

(** C2, as stated, fails: a configuration file holding [{}] is valid JSON
  but no valid configuration, and [load_config] (of either script)
  returns it as it is: nothing is reported, nothing is prompted for, the
  world is unchanged. *)
Lemma empty_object_config_is_returned :
VariantA.load_config (fresh_world (Some (Ok (JDict []))) [] unreachable)
= (Ok (JDict []), fresh_world (Some (Ok (JDict []))) [] unreachable)
/\ VariantB.load_config (fresh_world (Some (Ok (JDict []))) [] unreachable)
   = (Ok (JDict []), fresh_world (Some (Ok (JDict []))) [] unreachable).
Proof. split; reflexivity. Qed.

(** C10. On the interactive path (no configuration file, or a corrupt one),
    with both prompts answered, the configuration [load_config] returns and
    the one it writes to the file are exactly the two entered strings, in
    both scripts; should the write fail, its exception ends [load_config] and
    nothing is returned.  Either way the whole outcome is the same whatever
    two literals the default configuration holds, so Variant A's embedded
    key and webhook URL never show. *)
Theorem entered_strings_are_the_config (w : world) (key url : string)
    (rest : list string) :
  w_config_file w = None \/ w_config_file w = Some (Raise JSONDecodeError) ->
  w_stdin w = key :: url :: rest ->
  (forall reads_as,
     w_write w (entered_config key url) = Written reads_as ->
     VariantA.load_config w
     = (Ok (entered_config key url), after_dialogue w (Some reads_as) rest)
     /\ VariantB.load_config w
        = (Ok (entered_config key url), after_dialogue w (Some reads_as) rest))
  /\ (forall e remains,
        w_write w (entered_config key url) = Write_fails e remains ->
        VariantA.load_config w = (Raise e, after_dialogue w remains rest)
        /\ VariantB.load_config w = (Raise e, after_dialogue w remains rest))
  /\ (forall api_key0 webhook_url0 : string,
        load_config_from api_key0 webhook_url0 w = VariantA.load_config w).
Proof.
  intros Hfile Hin. split; [|split].
  - intros reads_as Hwrite. unfold VariantA.load_config, VariantB.load_config.
    rewrite !(load_config_interactive _ _ w key url rest Hfile Hin), Hwrite. done.
  - intros e remains Hwrite. unfold VariantA.load_config, VariantB.load_config.
    rewrite !(load_config_interactive _ _ w key url rest Hfile Hin), Hwrite. done.
  - intros api_key0 webhook_url0. unfold VariantA.load_config.
    rewrite !(load_config_interactive _ _ w key url rest Hfile Hin). reflexivity.
Qed.

Lemma entered_strings_are_the_config_witness :
  exists w',
    VariantA.load_config (fresh_world None ["my-key"; "https://hook.example/1"] unreachable)
    = (Ok (entered_config "my-key" "https://hook.example/1"), w')
    /\ w_config_file w' = Some (Ok (entered_config "my-key" "https://hook.example/1")).
Proof.
  destruct (entered_strings_are_the_config
              (fresh_world None ["my-key"; "https://hook.example/1"] unreachable)
              "my-key" "https://hook.example/1" [] (or_introl eq_refl) eq_refl)
    as (Hwritten & _).
  destruct (Hwritten (Ok (entered_config "my-key" "https://hook.example/1")) eq_refl)
    as [Hrun _].
  eexists. split; [exact Hrun|reflexivity].
Defined.

(** ** The catalog client and the webhook publisher *)

Lemma after_after (w : world) (o1 o2 : list out_event) (s1 s2 : list request) :
after (after w o1 s1) o2 s2 = after w (o1 ++ o2) (s1 ++ s2).
Proof. unfold after. cbn. rewrite <- !app_assoc. reflexivity. Qed.

Lemma print_after (line : string) (w : world) :
print line w = (Ok tt, after w [Printed line] []).
Proof. unfold print, emit, after. rewrite app_nil_r. reflexivity. Qed.

Lemma fetch_fails (api_key count : json) (w : world) (msg : string) :
request_fails w (catalog_request w api_key count) msg ->
fetch_upcoming_games api_key count w
= (Ok (JList []),
   after w [Printed ("Error fetching games from RAWG.io: " +:+ msg)]
     [catalog_request w api_key count]).
Proof.
intros Hfail.
unfold fetch_upcoming_games, today, bind, try_except, requests_get, send, lift.
fold (catalog_request w api_key count).
destruct Hfail as [Hfail | (r & Hfail & Hstatus & Hmsg)]; rewrite Hfail.
- reflexivity.
- unfold raise_for_status.
  replace (400 <=? status_code r) with true by (symmetry; apply Z.leb_le; lia).
  replace (status_code r <? 600) with true by (symmetry; apply Z.ltb_lt; lia).
  rewrite Hmsg. reflexivity.
Qed.

Lemma bind_ok {A B} (m : M A) (k : A -> M B) (w w' : world) (a : A) :
m w = (Ok a, w') -> bind m k w = k a w'.
Proof. intros H. unfold bind. rewrite H. reflexivity. Qed.

Lemma lift_ok {A} (r : res A) (a : A) (w : world) : r = Ok a -> lift r w = (Ok a, w).
Proof. intros ->. reflexivity. Qed.

Lemma request_fails_after_output (w : world) (output : list out_event)
  (rq : request) (msg : string) :
request_fails w rq msg -> request_fails (after w output []) rq msg.
Proof. unfold request_fails, after. cbn. rewrite app_nil_r. auto. Qed.

Tactic Notation "run_step" uconstr(H) :=
erewrite bind_ok by (refine H); cbv beta iota.
Ltac run_print :=
erewrite bind_ok by (apply print_after); cbv beta iota; rewrite ?after_after.

Section Callers.
Variable py_repr : json -> string.
Variables (w : world) (config api_key : json) (msg : string).
Hypothesis Hfile : w_config_file w = Some (Ok config).
Hypothesis Hcred : credentials_missing config = Ok false.
Hypothesis Hkey : py_getitem config "rawg_api_key" = Ok api_key.
Hypothesis Hfail : request_fails w (catalog_request w api_key (JInt 20)) msg.

Lemma main_a_nothing_to_report :
  VariantA.main py_repr w
  = (Ok tt,
     after w
       [ Printed "Games to Discord Webhook";
         Printed "------------------------";
         Printed "Fetching upcoming games...";
         Printed ("Error fetching games from RAWG.io: " +:+ msg);
         Printed "No games found or error occurred." ]
       [catalog_request w api_key (JInt 20)]).
Proof.
  unfold VariantA.main.
  do 2 run_print.
  unfold VariantA.load_config.
  run_step (load_config_parsed _ _ (after w _ []) _ Hfile).
  run_step (lift_ok _ _ _ Hcred).
  run_print.
  run_step (lift_ok _ _ _ Hkey).
  run_step (fetch_fails _ _ _ _ (request_fails_after_output _ _ _ _ Hfail)).
  cbn [py_truthy negb]. rewrite after_after, print_after, after_after.
  reflexivity.
Qed.

Lemma main_b_nothing_to_report :
  VariantB.main py_repr w
  = (Ok tt,
     after w
       [ Printed "Games to Discord Webhook with Screenshots";
         Printed "----------------------------------------";
         Printed "Fetching upcoming games...";
         Printed ("Error fetching games from RAWG.io: " +:+ msg);
         Printed "No games found or error occurred." ]
       [catalog_request w api_key (JInt 20)]).
Proof.
  unfold VariantB.main.
  do 2 run_print.
  unfold VariantB.load_config.
  run_step (load_config_parsed _ _ (after w _ []) _ Hfile).
  run_step (lift_ok _ _ _ Hcred).
  run_print.
  run_step (lift_ok _ _ _ Hkey).
  run_step (fetch_fails _ _ _ _ (request_fails_after_output _ _ _ _ Hfail)).
  cbn [py_truthy negb]. rewrite after_after, print_after, after_after.
  reflexivity.
Qed.
End Callers.

(** C7. Whenever the catalog request fails in transport or comes back with
  a 4xx or 5xx status, whatever the body of the response,
  [fetch_upcoming_games] raises nothing: it prints the error and returns
  the empty list.  Its caller [main] (of either script, the configuration
  file holding both credentials) then prints that no games were found and
  ends normally, with no message posted. *)
Theorem fetch_failure_is_nothing_to_report (py_repr : json -> string)
  (api_key count : json) (w : world) (msg : string) :
request_fails w (catalog_request w api_key count) msg ->
fetch_upcoming_games api_key count w
= (Ok (JList []),
   after w [Printed ("Error fetching games from RAWG.io: " +:+ msg)]
     [catalog_request w api_key count])
/\ forall config,
     w_config_file w = Some (Ok config) ->
     credentials_missing config = Ok false ->
     py_getitem config "rawg_api_key" = Ok api_key ->
     count = JInt 20 ->
     VariantA.main py_repr w
     = (Ok tt,
        after w
          [ Printed "Games to Discord Webhook";
            Printed "------------------------";
            Printed "Fetching upcoming games...";
            Printed ("Error fetching games from RAWG.io: " +:+ msg);
            Printed "No games found or error occurred." ]
          [catalog_request w api_key count])
     /\ VariantB.main py_repr w
        = (Ok tt,
           after w
             [ Printed "Games to Discord Webhook with Screenshots";
               Printed "----------------------------------------";
               Printed "Fetching upcoming games...";
               Printed ("Error fetching games from RAWG.io: " +:+ msg);
               Printed "No games found or error occurred." ]
             [catalog_request w api_key count]).
Proof.
intros Hfail. split; [exact (fetch_fails _ _ _ _ Hfail)|].
intros config Hfile Hcred Hkey ->. split.
- exact (main_a_nothing_to_report py_repr w config api_key msg Hfile Hcred Hkey Hfail).
- exact (main_b_nothing_to_report py_repr w config api_key msg Hfile Hcred Hkey Hfail).
Qed.

Lemma fetch_failure_is_nothing_to_report_witness :
let w := fresh_world (Some (Ok (entered_config "my-key" "https://hook.example/1")))
           [] (answering 503) in
fetch_upcoming_games (JStr "my-key") (JInt 20) w
= (Ok (JList []),
   after w [Printed "Error fetching games from RAWG.io: HTTP error"]
     [catalog_request w (JStr "my-key") (JInt 20)])
/\ w_sent (snd (VariantB.main (fun _ => "") w))
   = [catalog_request w (JStr "my-key") (JInt 20)].
Proof.
intros w.
assert (request_fails w (catalog_request w (JStr "my-key") (JInt 20)) "HTTP error")
  as Hfail.
{ right. eexists. split; [reflexivity|]. cbn. split; [lia|reflexivity]. }
destruct (fetch_failure_is_nothing_to_report (fun _ => "") (JStr "my-key") (JInt 20)
            w "HTTP error" Hfail) as [Hfetch Hmain].
split; [exact Hfetch|].
destruct (Hmain _ eq_refl eq_refl eq_refl eq_refl) as [_ ->]. reflexivity.
Defined.

(** C8, as the code has it. [send_to_discord] issues exactly one POST and
  raises nothing.  It returns false, after printing the error, whenever the
  transport fails or the response has a 4xx or 5xx status; it returns true
  exactly when a response arrives with any other status. *)
Theorem publish_fails_on_error_status (webhook_url payload : json) (w : world) :
let rq := webhook_request webhook_url payload in
(forall msg,
   request_fails w rq msg ->
   send_to_discord webhook_url payload w
   = (Ok false,
      after w [Printed ("Error sending message to Discord: " +:+ msg)] [rq]))
/\ (forall r,
      w_http w (w_sent w) rq = Response r ->
      ~ 400 <= status_code r < 600 ->
      send_to_discord webhook_url payload w = (Ok true, after w [] [rq]))
/\ (exists sent w',
      send_to_discord webhook_url payload w = (Ok sent, w')
      /\ w_sent w' = w_sent w ++ [rq])
/\ (fst (send_to_discord webhook_url payload w) = Ok true
    <-> exists r, w_http w (w_sent w) rq = Response r
                  /\ ~ 400 <= status_code r < 600).
Proof.
intros rq.
assert (forall msg, request_fails w rq msg ->
          send_to_discord webhook_url payload w
          = (Ok false,
             after w [Printed ("Error sending message to Discord: " +:+ msg)] [rq]))
  as Hfalse.
{ intros msg Hfail.
  unfold send_to_discord, bind, try_except, requests_post, send, lift.
  fold (webhook_request webhook_url payload). fold rq.
  destruct Hfail as [Hfail | (r & Hfail & Hstatus & Hmsg)]; rewrite Hfail.
  - reflexivity.
  - unfold raise_for_status.
    replace (400 <=? status_code r) with true by (symmetry; apply Z.leb_le; lia).
    replace (status_code r <? 600) with true by (symmetry; apply Z.ltb_lt; lia).
    rewrite Hmsg. reflexivity. }
assert (forall r, w_http w (w_sent w) rq = Response r ->
          ~ 400 <= status_code r < 600 ->
          send_to_discord webhook_url payload w = (Ok true, after w [] [rq]))
  as Htrue.
{ intros r Hr Hstatus.
  unfold send_to_discord, bind, try_except, requests_post, send, lift.
  fold (webhook_request webhook_url payload). fold rq. rewrite Hr.
  unfold raise_for_status.
  destruct (400 <=? status_code r) eqn:Hlo; destruct (status_code r <? 600) eqn:Hhi;
    cbn [andb]; unfold after; rewrite ?app_nil_r; try reflexivity.
  apply Z.leb_le in Hlo. apply Z.ltb_lt in Hhi. lia. }
split; [exact Hfalse|]. split; [exact Htrue|].
destruct (w_http w (w_sent w) rq) as [msg|r] eqn:Hout.
- assert (request_fails w rq msg) as Hfail by (left; exact Hout).
  rewrite (Hfalse msg Hfail). split.
  + eexists _, _. split; reflexivity.
  + split; [discriminate|]. intros (r & [=] & _).
- destruct (decide (400 <= status_code r < 600)) as [Hstatus | Hstatus].
  + assert (request_fails w rq (http_error r)) as Hfail.
    { right. exists r. rewrite Hout. auto. }
    rewrite (Hfalse _ Hfail). split.
    * eexists _, _. split; reflexivity.
    * split; [discriminate|]. intros (r' & [= <-] & Hno). contradiction.
  + rewrite (Htrue r eq_refl Hstatus). split.
    * eexists _, _. split; reflexivity.
    * split; [eauto|reflexivity].
Qed.

Lemma publish_fails_on_error_status_witness :
let w := fresh_world None [] (answering 404) in
send_to_discord (JStr "https://hook.example/1") no_games w
= (Ok false,
   after w [Printed "Error sending message to Discord: HTTP error"]
     [webhook_request (JStr "https://hook.example/1") no_games]).
Proof.
intros w.
apply (proj1 (publish_fails_on_error_status (JStr "https://hook.example/1")
                no_games w)).
right. eexists. split; [reflexivity|]. cbn. split; [lia|reflexivity].
Defined.

(** C8, as stated, fails: a response with status 304 is not a 2xx one, yet
  [send_to_discord] returns true on it. *)
Lemma publish_succeeds_on_304 :
send_to_discord (JStr "https://hook.example/1") no_games
  (fresh_world None [] (answering 304))
= (Ok true,
   after (fresh_world None [] (answering 304)) []
     [webhook_request (JStr "https://hook.example/1") no_games]).
Proof. reflexivity. Qed.

(** An exception of [json.load] other than [JSONDecodeError] (a
    [UnicodeDecodeError] on bytes that are no text, for one) is not caught:
    [load_config] of either script ends with it, and nothing is printed or
    prompted for. *)
Theorem unreadable_config_propagates (w : world) (e : exn) :
  w_config_file w = Some (Raise e) ->
  e <> JSONDecodeError ->
  VariantA.load_config w = (Raise e, w) /\ VariantB.load_config w = (Raise e, w).
Proof.
  intros Hfile He. split; apply load_config_other_error; assumption.
Qed.

Lemma unreadable_config_propagates_witness :
  VariantA.load_config (fresh_world (Some (Raise UnicodeDecodeError)) [] unreachable)
  = (Raise UnicodeDecodeError,
     fresh_world (Some (Raise UnicodeDecodeError)) [] unreachable).
Proof.
  apply (unreadable_config_propagates
           (fresh_world (Some (Raise UnicodeDecodeError)) [] unreachable)
           UnicodeDecodeError eq_refl).
  discriminate.
Defined.


(** ** The catalog client, answered *)

Lemma raise_for_status_ok (r : response) :
  ~ 400 <= status_code r < 600 -> raise_for_status r = Ok tt.
Proof.
  intros H. unfold raise_for_status.
  destruct (400 <=? status_code r) eqn:Hlo; destruct (status_code r <? 600) eqn:Hhi;
    try reflexivity.
  apply Z.leb_le in Hlo. apply Z.ltb_lt in Hhi. lia.
Qed.

Lemma raise_for_status_error (r : response) :
  400 <= status_code r < 600 ->
  raise_for_status r = Raise (RequestException (http_error r)).
Proof.
  intros H. unfold raise_for_status.
  replace (400 <=? status_code r) with true by (symmetry; apply Z.leb_le; lia).
  replace (status_code r <? 600) with true by (symmetry; apply Z.ltb_lt; lia).
  reflexivity.
Qed.

Lemma after_nothing_sent (w : world) (rq : request) :
  {| w_config_file := w_config_file w; w_write := w_write w;
        w_stdin := w_stdin w;
     w_stdout := w_stdout w; w_today := w_today w; w_now := w_now w;
     w_sent := w_sent w ++ [rq]; w_http := w_http w |}
  = after w [] [rq].
Proof. unfold after. rewrite app_nil_r. reflexivity. Qed.

Lemma fetch_answered (api_key count : json) (w : world) (r : response) :
  request_answered w (catalog_request w api_key count) r ->
  fetch_upcoming_games api_key count w
  = match json_result r with
    | Ok data =>
        match py_get data "results" (JList []) with
        | Ok results => (Ok results, after w [] [catalog_request w api_key count])
        | Raise e => (Raise e, after w [] [catalog_request w api_key count])
        end
    | Raise (RequestException msg) =>
        (Ok (JList []),
         after w [Printed ("Error fetching games from RAWG.io: " +:+ msg)]
           [catalog_request w api_key count])
    | Raise e => (Raise e, after w [] [catalog_request w api_key count])
    end.
Proof.
  intros [Hr Hstatus].
  unfold fetch_upcoming_games, today, bind, try_except, requests_get, send, lift.
  fold (catalog_request w api_key count). rewrite Hr.
  rewrite (raise_for_status_ok r Hstatus), after_nothing_sent.
  destruct (json_result r) as [data|e].
  - destruct data; cbn [py_get]; reflexivity.
  - destruct e; try reflexivity.
    rewrite print_after, after_after. reflexivity.
Qed.

(** When the catalog answers without an HTTP error and the body is a JSON
    object, [fetch_upcoming_games] returns the object's ["results"], and
    the empty list when it has none; it prints nothing and has issued the
    one request. *)
Theorem fetch_returns_results (api_key count : json) (w : world) (r : response)
    (data : pydict) :
  request_answered w (catalog_request w api_key count) r ->
  json_result r = Ok (JDict data) ->
  fetch_upcoming_games api_key count w
  = (Ok (default (JList []) (dict_get "results" data)),
     after w [] [catalog_request w api_key count]).
Proof.
  intros Hr Hbody. rewrite (fetch_answered _ _ _ _ Hr), Hbody. reflexivity.
Qed.

Lemma fetch_returns_results_witness :
  fetch_upcoming_games (JStr "my-key") (JInt 20)
    (fresh_world None [] (serving (games_of [mock_bar])))
  = (Ok (games_of [mock_bar]),
     after (fresh_world None [] (serving (games_of [mock_bar]))) []
       [catalog_request (fresh_world None [] (serving (games_of [mock_bar])))
          (JStr "my-key") (JInt 20)]).
Proof.
  apply (fetch_returns_results (JStr "my-key") (JInt 20)
           (fresh_world None [] (serving (games_of [mock_bar])))
           {| status_code := 200; http_error := "";
              json_result := Ok (JDict [("results", games_of [mock_bar])]) |}
           [("results", games_of [mock_bar])]).
  - split; [reflexivity|]. cbn. lia.
  - reflexivity.
Defined.

(** When the catalog answers without an HTTP error and the body is valid
    JSON but no object (a list, a number, null), [fetch_upcoming_games]
    ends with [AttributeError]: the handler catches request errors only. *)
Theorem fetch_escapes_on_non_object (api_key count : json) (w : world) (r : response)
    (body : json) :
  request_answered w (catalog_request w api_key count) r ->
  json_result r = Ok body ->
  (forall data, body <> JDict data) ->
  fetch_upcoming_games api_key count w
  = (Raise AttributeError, after w [] [catalog_request w api_key count]).
Proof.
  intros Hr Hbody Hno. rewrite (fetch_answered _ _ _ _ Hr), Hbody.
  destruct body; try reflexivity. exfalso. by eapply Hno.
Qed.

Lemma fetch_escapes_on_non_object_witness :
  fst (fetch_upcoming_games (JStr "my-key") (JInt 20)
         (fresh_world None []
            (fun _ _ => Response {| status_code := 200; http_error := "";
                                    json_result := Ok (JList []) |})))
  = Raise AttributeError.
Proof.
  rewrite (fetch_escapes_on_non_object (JStr "my-key") (JInt 20)
             (fresh_world None []
                (fun _ _ => Response {| status_code := 200; http_error := "";
                                        json_result := Ok (JList []) |}))
             {| status_code := 200; http_error := ""; json_result := Ok (JList []) |}
             (JList [])).
  - reflexivity.
  - split; [reflexivity|]. cbn. lia.
  - reflexivity.
  - discriminate.
Defined.

(** When the catalog answers without an HTTP error and decoding the body
    raises, [fetch_upcoming_games] returns the empty list after printing the
    error if the exception is a request error, and ends with the exception
    otherwise. *)
Theorem fetch_decode_error (api_key count : json) (w : world) (r : response) (e : exn) :
  request_answered w (catalog_request w api_key count) r ->
  json_result r = Raise e ->
  (forall msg,
     e = RequestException msg ->
     fetch_upcoming_games api_key count w
     = (Ok (JList []),
        after w [Printed ("Error fetching games from RAWG.io: " +:+ msg)]
          [catalog_request w api_key count]))
  /\ ((forall msg, e <> RequestException msg) ->
      fetch_upcoming_games api_key count w
      = (Raise e, after w [] [catalog_request w api_key count])).
Proof.
  intros Hr Hbody. rewrite (fetch_answered _ _ _ _ Hr), Hbody. split.
  - intros msg ->. reflexivity.
  - intros Hno. destruct e; try reflexivity. exfalso. by eapply Hno.
Qed.

Lemma fetch_decode_error_witness :
  fst (fetch_upcoming_games (JStr "my-key") (JInt 20)
         (fresh_world None []
            (fun _ _ => Response {| status_code := 200; http_error := "";
                                    json_result := Raise ValueError |})))
  = Raise ValueError.
Proof.
  destruct (fetch_decode_error (JStr "my-key") (JInt 20)
              (fresh_world None []
                 (fun _ _ => Response {| status_code := 200; http_error := "";
                                         json_result := Raise ValueError |}))
              {| status_code := 200; http_error := "";
                 json_result := Raise ValueError |}
              ValueError) as [_ H].
  - split; [reflexivity|]. cbn. lia.
  - reflexivity.
  - rewrite H; [reflexivity|discriminate].
Defined.

(** ** The screenshot client *)

Section Screenshots.
Variable py_repr : json -> string.

Lemma screenshot_fails (api_key game_id : json) (w : world) (msg : string) :
  request_fails w (screenshot_request py_repr api_key game_id) msg ->
  VariantB.fetch_game_screenshot py_repr api_key game_id w
  = (Ok JNull,
     after w
       [Printed ("Error fetching screenshot for game " +:+ py_str py_repr game_id
                   +:+ ": " +:+ msg)]
       [screenshot_request py_repr api_key game_id]).
Proof.
  intros Hfail.
  unfold VariantB.fetch_game_screenshot, bind, try_except, requests_get, send, lift.
  fold (screenshot_request py_repr api_key game_id).
  destruct Hfail as [Hfail | (r & Hfail & Hstatus & Hmsg)]; rewrite Hfail.
  - reflexivity.
  - rewrite (raise_for_status_error r Hstatus), Hmsg. reflexivity.
Qed.

Lemma screenshot_answered (api_key game_id : json) (w : world) (r : response)
    (data : pydict) :
  request_answered w (screenshot_request py_repr api_key game_id) r ->
  json_result r = Ok (JDict data) ->
  VariantB.fetch_game_screenshot py_repr api_key game_id w
  = (let results := default (JList []) (dict_get "results" data) in
     if py_truthy results then
       n <- py_len results ;;
       if bool_decide (0 < n)%nat then
         first <- py_first results ;; py_get first "image" JNull
       else Ok JNull
     else Ok JNull,
     after w [] [screenshot_request py_repr api_key game_id]).
Proof.
  intros [Hr Hstatus] Hbody.
  unfold VariantB.fetch_game_screenshot, bind, try_except, requests_get, send, lift.
  fold (screenshot_request py_repr api_key game_id). rewrite Hr.
  rewrite (raise_for_status_ok r Hstatus), after_nothing_sent, Hbody.
  cbn [py_get]. cbv zeta.
  generalize (default (JList []) (dict_get "results" data)). intros results.
  destruct results as [| [] | n | s | [|first rest] | [|kv d]];
    cbn [py_truthy py_len py_first py_get res_bind negb length];
    try reflexivity.
  - destruct (n =? 0); reflexivity.
  - destruct (String.eqb s ""); cbn [negb]; [reflexivity|].
    destruct (utf8_chars s) as [|c cs]; cbn [length]; [reflexivity|].
    rewrite ?bool_decide_eq_true_2 by lia. reflexivity.
  - rewrite ?bool_decide_eq_true_2 by lia. cbn [res_bind].
    destruct first; reflexivity.
Qed.
End Screenshots.

(** When a screenshot request fails in transport or comes back with a 4xx
    or 5xx status, [fetch_game_screenshot] raises nothing: it prints the
    error with the game's id and returns [None]. *)
Theorem screenshot_failure_gives_none (py_repr : json -> string)
    (api_key game_id : json) (w : world) (msg : string) :
  request_fails w (screenshot_request py_repr api_key game_id) msg ->
  VariantB.fetch_game_screenshot py_repr api_key game_id w
  = (Ok JNull,
     after w
       [Printed ("Error fetching screenshot for game " +:+ py_str py_repr game_id
                   +:+ ": " +:+ msg)]
       [screenshot_request py_repr api_key game_id]).
Proof. apply screenshot_fails. Qed.

Lemma screenshot_failure_gives_none_witness :
  VariantB.fetch_game_screenshot (fun _ => "") (JStr "my-key") (JInt 7)
    (fresh_world None [] unreachable)
  = (Ok JNull,
     after (fresh_world None [] unreachable)
       [Printed "Error fetching screenshot for game 7: Connection refused"]
       [screenshot_request (fun _ => "") (JStr "my-key") (JInt 7)]).
Proof.
  apply (screenshot_failure_gives_none (fun _ => "") (JStr "my-key") (JInt 7)
           (fresh_world None [] unreachable) "Connection refused").
  left. reflexivity.
Defined.

(** When a screenshot request is answered without an HTTP error by a JSON
    object, [fetch_game_screenshot] returns the ["image"] of the first
    result when the results are a list that starts with an object ([None]
    if that object has no image), and [None] when the results are missing,
    null or empty; it prints nothing. *)
Theorem screenshot_is_first_image (py_repr : json -> string) (api_key game_id : json)
    (w : world) (r : response) (data : pydict) :
  request_answered w (screenshot_request py_repr api_key game_id) r ->
  json_result r = Ok (JDict data) ->
  (forall first rest,
     dict_get "results" data = Some (JList (JDict first :: rest)) ->
     VariantB.fetch_game_screenshot py_repr api_key game_id w
     = (Ok (default JNull (dict_get "image" first)),
        after w [] [screenshot_request py_repr api_key game_id]))
  /\ (py_truthy (default (JList []) (dict_get "results" data)) = false ->
      VariantB.fetch_game_screenshot py_repr api_key game_id w
      = (Ok JNull, after w [] [screenshot_request py_repr api_key game_id])).
Proof.
  intros Hr Hbody. rewrite (screenshot_answered py_repr _ _ _ _ _ Hr Hbody).
  cbv zeta. split.
  - intros first rest ->. reflexivity.
  - intros ->. reflexivity.
Qed.

Lemma screenshot_is_first_image_witness :
  VariantB.fetch_game_screenshot (fun _ => "") (JStr "my-key") (JInt 7)
    (fresh_world None []
       (serving (JList [JDict [("image", JStr "https://img.example/7.jpg")];
                        JDict [("image", JStr "https://img.example/7b.jpg")]])))
  = (Ok (JStr "https://img.example/7.jpg"),
     after (fresh_world None []
              (serving (JList [JDict [("image", JStr "https://img.example/7.jpg")];
                               JDict [("image", JStr "https://img.example/7b.jpg")]])))
       [] [screenshot_request (fun _ => "") (JStr "my-key") (JInt 7)]).
Proof.
  destruct (screenshot_is_first_image (fun _ => "") (JStr "my-key") (JInt 7)
              (fresh_world None []
                 (serving (JList [JDict [("image", JStr "https://img.example/7.jpg")];
                                  JDict [("image", JStr "https://img.example/7b.jpg")]])))
              {| status_code := 200; http_error := "";
                 json_result :=
                   Ok (JDict [("results",
                     JList [JDict [("image", JStr "https://img.example/7.jpg")];
                            JDict [("image", JStr "https://img.example/7b.jpg")]])]) |}
              [("results",
                JList [JDict [("image", JStr "https://img.example/7.jpg")];
                       JDict [("image", JStr "https://img.example/7b.jpg")]])])
    as [H _].
  - split; [reflexivity|]. cbn. lia.
  - reflexivity.
  - exact (H _ _ eq_refl).
Defined.

(** When a screenshot request is answered without an HTTP error by a JSON
    object whose results are a list that starts with something that is no
    object, [fetch_game_screenshot] ends with [AttributeError]. *)
Theorem screenshot_escapes_on_odd_result (py_repr : json -> string)
    (api_key game_id : json) (w : world) (r : response) (data : pydict)
    (first : json) (rest : list json) :
  request_answered w (screenshot_request py_repr api_key game_id) r ->
  json_result r = Ok (JDict data) ->
  dict_get "results" data = Some (JList (first :: rest)) ->
  (forall d, first <> JDict d) ->
  VariantB.fetch_game_screenshot py_repr api_key game_id w
  = (Raise AttributeError, after w [] [screenshot_request py_repr api_key game_id]).
Proof.
  intros Hr Hbody Hres Hno.
  rewrite (screenshot_answered py_repr _ _ _ _ _ Hr Hbody). cbv zeta. rewrite Hres.
  destruct first; try reflexivity. exfalso. by eapply Hno.
Qed.

Lemma screenshot_escapes_on_odd_result_witness :
  fst (VariantB.fetch_game_screenshot (fun _ => "") (JStr "my-key") (JInt 7)
         (fresh_world None [] (serving (JList [JStr "https://img.example/7.jpg"]))))
  = Raise AttributeError.
Proof.
  rewrite (screenshot_escapes_on_odd_result (fun _ => "") (JStr "my-key") (JInt 7)
             (fresh_world None [] (serving (JList [JStr "https://img.example/7.jpg"])))
             {| status_code := 200; http_error := "";
                json_result :=
                  Ok (JDict [("results", JList [JStr "https://img.example/7.jpg"])]) |}
             [("results", JList [JStr "https://img.example/7.jpg"])]
             (JStr "https://img.example/7.jpg") []).
  - reflexivity.
  - split; [reflexivity|]. cbn. lia.
  - reflexivity.
  - reflexivity.
  - discriminate.
Defined.

(** ** A whole run *)

Lemma send_to_discord_fails (webhook_url payload : json) (w : world) (msg : string) :
  request_fails w (webhook_request webhook_url payload) msg ->
  send_to_discord webhook_url payload w
  = (Ok false,
     after w [Printed ("Error sending message to Discord: " +:+ msg)]
       [webhook_request webhook_url payload]).
Proof.
  intros Hfail.
  unfold send_to_discord, bind, try_except, requests_post, send, lift.
  fold (webhook_request webhook_url payload).
  destruct Hfail as [Hfail | (r & Hfail & Hstatus & Hmsg)]; rewrite Hfail.
  - reflexivity.
  - rewrite (raise_for_status_error r Hstatus), Hmsg. reflexivity.
Qed.

Lemma send_to_discord_answered (webhook_url payload : json) (w : world) (r : response) :
  request_answered w (webhook_request webhook_url payload) r ->
  send_to_discord webhook_url payload w
  = (Ok true, after w [] [webhook_request webhook_url payload]).
Proof.
  intros [Hr Hstatus].
  unfold send_to_discord, bind, try_except, requests_post, send, lift.
  fold (webhook_request webhook_url payload). rewrite Hr.
  rewrite (raise_for_status_ok r Hstatus), after_nothing_sent. reflexivity.
Qed.

Lemma request_answered_after_output (w : world) (output : list out_event)
    (rq : request) (r : response) :
  request_answered w rq r -> request_answered (after w output []) rq r.
Proof. unfold request_answered, after. cbn. rewrite app_nil_r. auto. Qed.

Lemma py_len_games (records : list pydict) :
  py_len (games_of records) = Ok (length records).
Proof. unfold games_of. cbn [py_len]. by rewrite length_fmap. Qed.

Lemma games_truthy (records : list pydict) :
  records <> [] -> py_truthy (games_of records) = true.
Proof. destruct records; [congruence|reflexivity]. Qed.

Lemma format_a_returns (py_repr : json -> string) (current_time : string)
    (records : list pydict) :
  records <> [] ->
  Forall (fun g => platforms_ok g = true) records ->
  exists payload,
    VariantA.format_discord_message py_repr current_time (games_of records)
    = Ok payload.
Proof.
  intros Hne Hok.
  destruct (for_each_add_game py_repr records Hok []) as (fields & Hloop & _).
  unfold VariantA.format_discord_message, games_of.
  destruct records as [|g records]; [congruence|].
  cbn [py_truthy fmap list_fmap negb py_iter res_bind].
  fold (JDict <$> records).
  change VariantA.embed0 with (embed_fields_A []).
  change (JDict g :: (JDict <$> records)) with (JDict <$> (g :: records)).
  rewrite Hloop. eauto.
Qed.

Section MainA.
Variable py_repr : json -> string.
Variables (w : world) (config api_key webhook_url : json).
Variables (r : response) (data : pydict) (records : list pydict) (payload : json).
Hypothesis Hfile : w_config_file w = Some (Ok config).
Hypothesis Hcred : credentials_missing config = Ok false.
Hypothesis Hkey : py_getitem config "rawg_api_key" = Ok api_key.
Hypothesis Hurl : py_getitem config "discord_webhook_url" = Ok webhook_url.
Hypothesis Hget : request_answered w (catalog_request w api_key (JInt 20)) r.
Hypothesis Hbody : json_result r = Ok (JDict data).
Hypothesis Hres : dict_get "results" data = Some (games_of records).
Hypothesis Hne : records <> [].
Hypothesis Hfmt :
  VariantA.format_discord_message py_repr (w_now w) (games_of records) = Ok payload.

Lemma main_a_until_post :
  VariantA.main py_repr w
  = (sent <~ send_to_discord webhook_url payload ;;
     if sent : bool then print "Success! Message sent to Discord."
     else print "Failed to send message to Discord.")
      (after w
         [ Printed "Games to Discord Webhook";
           Printed "------------------------";
           Printed "Fetching upcoming games...";
           Printed ("Found " +:+ pretty (length records) +:+ " upcoming games.");
           Printed "Formatting message for Discord...";
           Printed "Sending message to Discord..." ]
         [catalog_request w api_key (JInt 20)]).
Proof.
  unfold VariantA.main.
  do 2 run_print.
  unfold VariantA.load_config.
  run_step (load_config_parsed _ _ (after w _ []) _ Hfile).
  run_step (lift_ok _ _ _ Hcred).
  run_print.
  run_step (lift_ok _ _ _ Hkey).
  erewrite bind_ok
    by (rewrite (fetch_answered _ _ _ _ (request_answered_after_output _ _ _ _ Hget)),
          Hbody; cbn [py_get]; rewrite Hres; reflexivity).
  cbv beta iota. cbn [from_option id]. rewrite after_after.
  rewrite (games_truthy records Hne). cbn [negb].
  run_step (lift_ok _ _ _ (py_len_games records)).
  do 2 run_print.
  run_step (eq_refl : now (after w _ _) = (Ok (w_now w), _)).
  run_step (lift_ok _ _ _ Hfmt).
  run_print.
  run_step (lift_ok _ _ _ Hurl).
  reflexivity.
Qed.
End MainA.

(** A whole run of Variant A.  With a configuration file holding both
    credentials and the catalog answering with a non-empty list of records
    (platforms in the catalog's shape), [main] issues exactly two requests,
    the catalog GET and then one POST of the formatted records to the
    configured webhook; it prints the number of records found and, last,
    whether the POST succeeded, and raises nothing either way. *)
Theorem main_a_posts_formatted (py_repr : json -> string) (w : world)
    (config api_key webhook_url : json) (r : response) (data : pydict)
    (records : list pydict) :
  w_config_file w = Some (Ok config) ->
  credentials_missing config = Ok false ->
  py_getitem config "rawg_api_key" = Ok api_key ->
  py_getitem config "discord_webhook_url" = Ok webhook_url ->
  request_answered w (catalog_request w api_key (JInt 20)) r ->
  json_result r = Ok (JDict data) ->
  dict_get "results" data = Some (games_of records) ->
  records <> [] ->
  Forall (fun g => platforms_ok g = true) records ->
  exists payload,
    VariantA.format_discord_message py_repr (w_now w) (games_of records) = Ok payload
    /\ let post := webhook_request webhook_url payload in
       let w1 :=
         after w
           [ Printed "Games to Discord Webhook";
             Printed "------------------------";
             Printed "Fetching upcoming games...";
             Printed ("Found " +:+ pretty (length records) +:+ " upcoming games.");
             Printed "Formatting message for Discord...";
             Printed "Sending message to Discord..." ]
           [catalog_request w api_key (JInt 20)] in
       (forall msg,
          request_fails w1 post msg ->
          VariantA.main py_repr w
          = (Ok tt,
             after w1
               [ Printed ("Error sending message to Discord: " +:+ msg);
                 Printed "Failed to send message to Discord." ]
               [post]))
       /\ (forall r',
             request_answered w1 post r' ->
             VariantA.main py_repr w
             = (Ok tt, after w1 [Printed "Success! Message sent to Discord."] [post])).
Proof.
  intros Hfile Hcred Hkey Hurl Hget Hbody Hres Hne Hok.
  destruct (format_a_returns py_repr (w_now w) records Hne Hok) as [payload Hfmt].
  exists payload. split; [exact Hfmt|]. cbv zeta.
  rewrite (main_a_until_post py_repr w config api_key webhook_url r data records
             payload Hfile Hcred Hkey Hurl Hget Hbody Hres Hne Hfmt).
  split.
  - intros msg Hfail. run_step (send_to_discord_fails _ _ _ _ Hfail).
    rewrite print_after, after_after. reflexivity.
  - intros r' Hans. run_step (send_to_discord_answered _ _ _ _ Hans).
    rewrite print_after, after_after. reflexivity.
Qed.

Lemma main_a_posts_formatted_witness :
  let w := fresh_world (Some (Ok (entered_config "my-key" "https://hook.example/1")))
             [] (serving (games_of [mock_bar])) in
  fst (VariantA.main (fun _ => "") w) = Ok tt
  /\ length (w_sent (snd (VariantA.main (fun _ => "") w))) = 2%nat.
Proof.
  intros w.
  destruct (main_a_posts_formatted (fun _ => "") w
              (entered_config "my-key" "https://hook.example/1")
              (JStr "my-key") (JStr "https://hook.example/1")
              {| status_code := 200; http_error := "";
                 json_result := Ok (JDict [("results", games_of [mock_bar])]) |}
              [("results", games_of [mock_bar])] [mock_bar])
    as (payload & _ & _ & Hsent).
  - reflexivity.
  - reflexivity.
  - reflexivity.
  - reflexivity.
  - split; [reflexivity|]. cbn. lia.
  - reflexivity.
  - reflexivity.
  - discriminate.
  - repeat constructor.
  - rewrite (Hsent {| status_code := 200; http_error := "";
                      json_result := Ok (JDict [("results", games_of [mock_bar])]) |}).
    + split; reflexivity.
    + split; [reflexivity|]. cbn. lia.
Defined.

(** ** Collecting the screenshots *)

Section Collect.
Variable py_repr : json -> string.
Variables (config api_key : json) (answer : json -> shot_answer).
Hypothesis Hkey : py_getitem config "rawg_api_key" = Ok api_key.

Lemma fetch_game_screenshot_answer (game_id : json) (w : world) :
  answers_screenshot
    (w_http w (w_sent w) (screenshot_request py_repr api_key game_id))
    (answer game_id) ->
  VariantB.fetch_game_screenshot py_repr api_key game_id w
  = match answer game_id with
    | Shot_fails msg =>
        (Ok JNull,
         after w
           [Printed ("Error fetching screenshot for game " +:+ py_str py_repr game_id
                       +:+ ": " +:+ msg)]
           [screenshot_request py_repr api_key game_id])
    | Shot_found image =>
        (Ok image, after w [] [screenshot_request py_repr api_key game_id])
    end.
Proof.
  destruct (answer game_id) as [msg|image]; cbn [answers_screenshot].
  - intros H. apply screenshot_fails. exact H.
  - intros (r & data & Hr & Hstatus & Hbody & Hres).
    rewrite (screenshot_answered py_repr _ _ _ _ _ (conj Hr Hstatus) Hbody).
    cbv zeta.
    destruct Hres as [(first & rest & -> & ->) | [-> ->]]; reflexivity.
Qed.

Lemma collect_screenshot_step (g : pydict) (screenshots : gmap pykey json)
    (w : world) :
  id_ok g = true ->
  (forall history game_id,
     answers_screenshot
       (w_http w history (screenshot_request py_repr api_key game_id))
       (answer game_id)) ->
  VariantB.collect_screenshot py_repr config screenshots (JDict g) w
  = (Ok (expected_store answer screenshots g),
     after w (expected_lookup_output py_repr answer g)
       (if wants_screenshot g
        then [screenshot_request py_repr api_key (default JNull (dict_get "id" g))]
        else [])).
Proof.
  intros Hid Hnet.
  unfold VariantB.collect_screenshot, wants_screenshot, expected_store,
    expected_lookup_output.
  run_step (lift_ok (py_get (JDict g) "id" JNull) _ _ eq_refl).
  cbv zeta.
  destruct (py_truthy (default JNull (dict_get "id" g))) eqn:Hwant.
  - run_step (lift_ok (py_get (JDict g) "name" (JStr "Unknown")) _ _ eq_refl).
    run_print.
    run_step (lift_ok _ _ _ Hkey).
    pose proof (fetch_game_screenshot_answer (default JNull (dict_get "id" g))
                  (after w [Printed ("  Fetching screenshot for: "
                                       +:+ py_str py_repr
                                             (default (JStr "Unknown")
                                                (dict_get "name" g)))] [])
                  (Hnet _ _)) as Hfetch.
    destruct (id_ok_key g Hid) as [k Hk]. rewrite Hk.
    destruct (answer (default JNull (dict_get "id" g))) as [msg|image];
      run_step Hfetch; rewrite after_after.
    + cbn [py_truthy].
      run_step (lift_ok (py_get (JDict g) "name" (JStr "Unknown")) _ _ eq_refl).
      run_print. reflexivity.
    + destruct (py_truthy image) eqn:Himage.
      * run_step (lift_ok (Ok k) k _ eq_refl). reflexivity.
      * run_step (lift_ok (py_get (JDict g) "name" (JStr "Unknown")) _ _ eq_refl).
        run_print. reflexivity.
  - unfold ret, after. rewrite !app_nil_r. by destruct w.
Qed.

Lemma collect_screenshots_loop (records : list pydict) :
  Forall (fun g => id_ok g = true) records ->
  forall (screenshots : gmap pykey json) (w : world),
  (forall history game_id,
     answers_screenshot
       (w_http w history (screenshot_request py_repr api_key game_id))
       (answer game_id)) ->
  for_each_M (VariantB.collect_screenshot py_repr config) (JDict <$> records)
    screenshots w
  = (Ok (foldl (expected_store answer) screenshots records),
     after w (concat (expected_lookup_output py_repr answer <$> records))
       (expected_lookups py_repr api_key records)).
Proof.
  induction 1 as [|g records Hg _ IH]; intros screenshots w Hnet.
  - cbn. unfold ret, after, expected_lookups. cbn. rewrite !app_nil_r. by destruct w.
  - cbn [fmap list_fmap for_each_M]. fold (JDict <$> records).
    run_step (collect_screenshot_step g screenshots w Hg Hnet).
    rewrite IH by exact Hnet. rewrite after_after.
    unfold expected_lookups. cbn [foldl concat List.filter].
    fold (expected_lookup_output py_repr answer <$> records).
    destruct (wants_screenshot g); reflexivity.
Qed.
End Collect.

Section MainB.
Variable py_repr : json -> string.
Variables (w : world) (config api_key webhook_url : json).
Variables (r : response) (data : pydict) (records : list pydict).
Variable answer : json -> shot_answer.
Hypothesis Hfile : w_config_file w = Some (Ok config).
Hypothesis Hcred : credentials_missing config = Ok false.
Hypothesis Hkey : py_getitem config "rawg_api_key" = Ok api_key.
Hypothesis Hurl : py_getitem config "discord_webhook_url" = Ok webhook_url.
Hypothesis Hget : request_answered w (catalog_request w api_key (JInt 20)) r.
Hypothesis Hbody : json_result r = Ok (JDict data).
Hypothesis Hres : dict_get "results" data = Some (games_of records).
Hypothesis Hne : records <> [].
Hypothesis Hids : Forall (fun g => id_ok g = true) records.
Hypothesis Hpl : Forall (fun g => platforms_ok g = true) (take 9 records).
Hypothesis Hnet :
  forall history game_id,
    answers_screenshot
      (w_http w history (screenshot_request py_repr api_key game_id))
      (answer game_id).

Lemma main_b_until_post :
  VariantB.main py_repr w
  = (sent <~ send_to_discord webhook_url
               (JDict [("embeds",
                  JList (expected_header_B (w_now w)
                           :: (expected_embed_B py_repr
                                 (expected_screenshots answer records)
                                 <$> take 9 records)))]) ;;
     if sent : bool then print "Success! Message with screenshots sent to Discord."
     else print "Failed to send message to Discord.")
      (after w
         ([ Printed "Games to Discord Webhook with Screenshots";
            Printed "----------------------------------------";
            Printed "Fetching upcoming games...";
            Printed ("Found " +:+ pretty (length records) +:+ " upcoming games.");
            Printed "Fetching screenshots for games..." ]
          ++ concat (expected_lookup_output py_repr answer <$> records)
          ++ [ Printed ("Found screenshots for "
                          +:+ pretty (size (expected_screenshots answer records))
                          +:+ " out of " +:+ pretty (length records) +:+ " games.");
               Printed "Formatting message for Discord...";
               Printed "Sending message to Discord..." ])
         (catalog_request w api_key (JInt 20)
            :: expected_lookups py_repr api_key records)).
Proof.
  assert (Forall (fun g => record_ok g = true) (take 9 records)) as Hok9.
  { apply Forall_lookup. intros i g Hi. unfold record_ok.
    rewrite (proj1 (Forall_lookup _ _) Hpl i g Hi).
    by rewrite (proj1 (Forall_lookup _ _) (Forall_take _ 9%nat _ Hids) i g Hi). }
  unfold VariantB.main.
  do 2 run_print.
  unfold VariantB.load_config.
  run_step (load_config_parsed _ _ (after w _ []) _ Hfile).
  run_step (lift_ok _ _ _ Hcred).
  run_print.
  run_step (lift_ok _ _ _ Hkey).
  erewrite bind_ok
    by (rewrite (fetch_answered _ _ _ _ (request_answered_after_output _ _ _ _ Hget)),
          Hbody; cbn [py_get]; rewrite Hres; reflexivity).
  cbv beta iota. cbn [from_option id]. rewrite after_after.
  rewrite (games_truthy records Hne). cbn [negb].
  run_step (lift_ok _ _ _ (py_len_games records)).
  do 2 run_print.
  run_step (lift_ok (py_iter (games_of records)) _ _ eq_refl).
  erewrite bind_ok
    by (apply (collect_screenshots_loop py_repr config api_key answer Hkey records Hids);
        exact Hnet).
  cbv beta iota. rewrite after_after.
  fold (expected_screenshots answer records).
  run_step (lift_ok _ _ _ (py_len_games records)).
  do 2 run_print.
  run_step (eq_refl : now (after w _ _) = (Ok (w_now w), _)).
  run_step (lift_ok _ _ _
              (format_b_expected py_repr (w_now w)
                 (expected_screenshots answer records) records Hne Hok9)).
  run_print.
  run_step (lift_ok _ _ _ Hurl).
  f_equal. apply (f_equal2 (after w)).
  - cbn [app]. rewrite <- !app_assoc. reflexivity.
  - cbn [app]. rewrite !app_nil_r. reflexivity.
Qed.
End MainB.



(** ** Runs that stop early *)

Lemma bind_raise {A B} (m : M A) (k : A -> M B) (w w' : world) (e : exn) :
  m w = (Raise e, w') -> bind m k w = (Raise e, w').
Proof. intros H. unfold bind. rewrite H. reflexivity. Qed.

(** When the loaded configuration is an object whose API key is empty (or
    otherwise false), or whose API key is there and whose webhook URL is
    empty (or otherwise false), [main] of either script prints that
    credentials are missing and stops: no request is issued and nothing is
    raised.  A false API key suffices, whether or not the webhook URL is
    there at all. *)
Theorem main_stops_without_credentials (py_repr : json -> string) (w wa wb : world)
    (config : pydict) (key : json) :
  dict_get "rawg_api_key" config = Some key ->
  (py_truthy key = false
   \/ exists url, dict_get "discord_webhook_url" config = Some url
                  /\ py_truthy url = false) ->
  (VariantA.load_config
     (after w [Printed "Games to Discord Webhook";
               Printed "------------------------"] [])
   = (Ok (JDict config), wa) ->
   VariantA.main py_repr w
   = (Ok tt,
      after wa
        [Printed "Error: Missing API key or webhook URL. Please update the configuration."]
        []))
  /\ (VariantB.load_config
        (after w [Printed "Games to Discord Webhook with Screenshots";
                  Printed "----------------------------------------"] [])
      = (Ok (JDict config), wb) ->
      VariantB.main py_repr w
      = (Ok tt,
         after wb
           [Printed "Error: Missing API key or webhook URL. Please update the configuration."]
           [])).
Proof.
  intros Hkey Hfalse.
  assert (credentials_missing (JDict config) = Ok true) as Hcred.
  { unfold credentials_missing. cbn [py_getitem]. rewrite Hkey. cbn [res_bind].
    destruct (py_truthy key) eqn:Hk; [|reflexivity]. cbn [negb].
    destruct Hfalse as [|(url & Hurl & Hu)]; [discriminate|].
    rewrite Hurl. cbn [res_bind]. by rewrite Hu. }
  split; intros Hload.
  - unfold VariantA.main. do 2 run_print. run_step Hload.
    run_step (lift_ok _ _ _ Hcred). apply print_after.
  - unfold VariantB.main. do 2 run_print. run_step Hload.
    run_step (lift_ok _ _ _ Hcred). apply print_after.
Qed.

Lemma main_stops_without_credentials_witness :
  fst (VariantB.main (fun _ => "")
         (fresh_world None ["my-key"; ""] (answering 200)))
  = Ok tt
  /\ w_sent (snd (VariantB.main (fun _ => "")
                    (fresh_world None ["my-key"; ""] (answering 200))))
     = [].
Proof.
  destruct (main_stops_without_credentials (fun _ => "")
              (fresh_world None ["my-key"; ""] (answering 200))
              (fresh_world None [] (answering 200))
              (snd (VariantB.load_config
                      (after (fresh_world None ["my-key"; ""] (answering 200))
                         [Printed "Games to Discord Webhook with Screenshots";
                          Printed "----------------------------------------"] [])))
              [("rawg_api_key", JStr "my-key"); ("discord_webhook_url", JStr "")]
              (JStr "my-key")) as [_ H].
  - reflexivity.
  - right. exists (JStr ""). split; reflexivity.
  - rewrite H; [split; reflexivity|reflexivity].
Defined.

(** When the check of the loaded configuration raises (a JSON object
    without the ["rawg_api_key"] key gives [KeyError]; a value that is no
    object gives [TypeError]), [main] of either script ends with that
    exception before any request. *)
Theorem main_ends_on_unusable_config (py_repr : json -> string) (w wa wb : world)
    (config : json) (e : exn) :
  credentials_missing config = Raise e ->
  (VariantA.load_config
     (after w [Printed "Games to Discord Webhook";
               Printed "------------------------"] [])
   = (Ok config, wa) ->
   VariantA.main py_repr w = (Raise e, wa))
  /\ (VariantB.load_config
        (after w [Printed "Games to Discord Webhook with Screenshots";
                  Printed "----------------------------------------"] [])
      = (Ok config, wb) ->
      VariantB.main py_repr w = (Raise e, wb)).
Proof.
  intros Hcred. split; intros Hload.
  - unfold VariantA.main. do 2 run_print. run_step Hload.
    apply bind_raise. unfold lift. by rewrite Hcred.
  - unfold VariantB.main. do 2 run_print. run_step Hload.
    apply bind_raise. unfold lift. by rewrite Hcred.
Qed.

Lemma main_ends_on_unusable_config_witness :
  VariantA.main (fun _ => "") (fresh_world (Some (Ok (JDict []))) [] (answering 200))
  = (Raise KeyError,
     after (fresh_world (Some (Ok (JDict []))) [] (answering 200))
       [Printed "Games to Discord Webhook"; Printed "------------------------"] []).
Proof.
  apply (main_ends_on_unusable_config (fun _ => "")
           (fresh_world (Some (Ok (JDict []))) [] (answering 200))
           _ (fresh_world None [] unreachable) (JDict []) KeyError);
    reflexivity.
Defined.

(** When the catalog answers without an HTTP error by an object whose
    results are missing, null or empty, [main] of either script prints that
    no games were found and stops after that one request: nothing is
    posted. *)
Theorem main_posts_nothing_without_games (py_repr : json -> string) (w : world)
    (config api_key : json) (r : response) (data : pydict) :
  w_config_file w = Some (Ok config) ->
  credentials_missing config = Ok false ->
  py_getitem config "rawg_api_key" = Ok api_key ->
  request_answered w (catalog_request w api_key (JInt 20)) r ->
  json_result r = Ok (JDict data) ->
  py_truthy (default (JList []) (dict_get "results" data)) = false ->
  VariantA.main py_repr w
  = (Ok tt,
     after w
       [ Printed "Games to Discord Webhook";
         Printed "------------------------";
         Printed "Fetching upcoming games...";
         Printed "No games found or error occurred." ]
       [catalog_request w api_key (JInt 20)])
  /\ VariantB.main py_repr w
     = (Ok tt,
        after w
          [ Printed "Games to Discord Webhook with Screenshots";
            Printed "----------------------------------------";
            Printed "Fetching upcoming games...";
            Printed "No games found or error occurred." ]
          [catalog_request w api_key (JInt 20)]).
Proof.
  intros Hfile Hcred Hkey Hget Hbody Hres. split.
  - unfold VariantA.main. do 2 run_print. unfold VariantA.load_config.
    run_step (load_config_parsed _ _ (after w _ []) _ Hfile).
    run_step (lift_ok _ _ _ Hcred). run_print.
    run_step (lift_ok _ _ _ Hkey).
    erewrite bind_ok
      by (rewrite (fetch_answered _ _ _ _
                     (request_answered_after_output _ _ _ _ Hget)), Hbody;
          reflexivity).
    cbv beta iota. rewrite Hres. cbn [negb].
    rewrite after_after, print_after, after_after. reflexivity.
  - unfold VariantB.main. do 2 run_print. unfold VariantB.load_config.
    run_step (load_config_parsed _ _ (after w _ []) _ Hfile).
    run_step (lift_ok _ _ _ Hcred). run_print.
    run_step (lift_ok _ _ _ Hkey).
    erewrite bind_ok
      by (rewrite (fetch_answered _ _ _ _
                     (request_answered_after_output _ _ _ _ Hget)), Hbody;
          reflexivity).
    cbv beta iota. rewrite Hres. cbn [negb].
    rewrite after_after, print_after, after_after. reflexivity.
Qed.

Lemma main_posts_nothing_without_games_witness :
  let w := fresh_world (Some (Ok (entered_config "my-key" "https://hook.example/1")))
             [] (serving (JList [])) in
  w_sent (snd (VariantA.main (fun _ => "") w))
  = [catalog_request w (JStr "my-key") (JInt 20)].
Proof.
  intros w.
  destruct (main_posts_nothing_without_games (fun _ => "") w
              (entered_config "my-key" "https://hook.example/1") (JStr "my-key")
              {| status_code := 200; http_error := "";
                 json_result := Ok (JDict [("results", JList [])]) |}
              [("results", JList [])]) as [H _].
  - reflexivity.
  - reflexivity.
  - reflexivity.
  - split; [reflexivity|]. cbn. lia.
  - reflexivity.
  - reflexivity.
  - rewrite H. reflexivity.
Defined.

(** ** The configuration file, written and read back *)

(** A configuration file that decodes is returned as decoded, whatever JSON
    value it holds: nothing is checked, printed, prompted for or written. *)
Theorem parsed_config_is_returned_unchecked (w : world) (v : json) :
  w_config_file w = Some (Ok v) ->
  VariantA.load_config w = (Ok v, w) /\ VariantB.load_config w = (Ok v, w).
Proof. intros Hfile. split; apply load_config_parsed; exact Hfile. Qed.

Lemma parsed_config_is_returned_unchecked_witness :
  VariantB.load_config (fresh_world (Some (Ok (JList [JInt 1]))) ["x"] unreachable)
  = (Ok (JList [JInt 1]), fresh_world (Some (Ok (JList [JInt 1]))) ["x"] unreachable).
Proof.
  apply (parsed_config_is_returned_unchecked
           (fresh_world (Some (Ok (JList [JInt 1]))) ["x"] unreachable)
           (JList [JInt 1]) eq_refl).
Defined.

(** On the interactive path, with both prompts answered, a write that
    fails ([open] refused on a read-only file or directory, say) ends
    [load_config] of either script with the write's exception: nothing
    catches it.  Both prompts have been shown by then. *)
Theorem unwritable_config_raises (w : world) (key url : string) (rest : list string)
    (e : exn) (remains : option (res json)) :
  w_config_file w = None \/ w_config_file w = Some (Raise JSONDecodeError) ->
  w_stdin w = key :: url :: rest ->
  w_write w (entered_config key url) = Write_fails e remains ->
  (exists w',
     VariantA.load_config w = (Raise e, w')
     /\ w_config_file w' = remains
     /\ w_stdout w'
        = w_stdout w
          ++ (if w_config_file w is Some _ then [corruption_report] else [])
          ++ prompts)
  /\ (exists w',
        VariantB.load_config w = (Raise e, w')
        /\ w_config_file w' = remains
        /\ w_stdout w'
           = w_stdout w
             ++ (if w_config_file w is Some _ then [corruption_report] else [])
             ++ prompts).
Proof.
  intros Hfile Hin Hwrite.
  split; eexists;
    (split;
     [unfold VariantA.load_config, VariantB.load_config;
      rewrite (load_config_interactive _ _ w key url rest Hfile Hin), Hwrite;
      reflexivity
     |split; reflexivity]).
Qed.

Lemma unwritable_config_raises_witness :
  exists w',
    VariantA.load_config
      {| w_config_file := None;
         w_write := fun _ => Write_fails OSError None;
         w_stdin := ["my-key"; "https://hook.example/1"]; w_stdout := [];
         w_today := 739311; w_now := "2025-03-01 12:00:00";
         w_sent := []; w_http := unreachable |}
    = (Raise OSError, w')
    /\ w_config_file w' = None
    /\ w_stdout w' = prompts.
Proof.
  destruct (unwritable_config_raises
              {| w_config_file := None;
                 w_write := fun _ => Write_fails OSError None;
                 w_stdin := ["my-key"; "https://hook.example/1"]; w_stdout := [];
                 w_today := 739311; w_now := "2025-03-01 12:00:00";
                 w_sent := []; w_http := unreachable |}
              "my-key" "https://hook.example/1" [] OSError None
              (or_introl eq_refl) eq_refl eq_refl) as [H _].
  exact H.
Defined.

(** When the operator's input ends before both prompts are answered,
    [load_config] of either script ends with [EOFError] and leaves the
    configuration file as it was: absent, or corrupt. *)
Theorem unanswered_prompt_raises (w : world) :
  w_config_file w = None \/ w_config_file w = Some (Raise JSONDecodeError) ->
  (w_stdin w = [] \/ exists key, w_stdin w = [key]) ->
  (exists w', VariantA.load_config w = (Raise EOFError, w')
              /\ w_config_file w' = w_config_file w)
  /\ (exists w', VariantB.load_config w = (Raise EOFError, w')
                 /\ w_config_file w' = w_config_file w).
Proof.
  intros Hfile Hin.
  split;
    unfold VariantA.load_config, VariantB.load_config, load_config_from, bind,
      config_exists, try_except, read_config, ret, print, input, emit,
      write_config, bind;
    (destruct Hfile as [Hfile | Hfile]; rewrite Hfile; cbn; rewrite ?Hfile; cbn;
     (destruct Hin as [Hin | [key Hin]]; rewrite Hin; cbn;
      eexists; (split; [reflexivity|cbn; congruence]))).
Qed.

Lemma unanswered_prompt_raises_witness :
  exists w',
    VariantA.load_config (fresh_world None ["my-key"] unreachable) = (Raise EOFError, w')
    /\ w_config_file w' = None.
Proof.
  destruct (unanswered_prompt_raises (fresh_world None ["my-key"] unreachable)
              (or_introl eq_refl)) as [H _].
  - right. exists "my-key". reflexivity.
  - exact H.
Defined.

(** ** More on the formatters *)

(** On a non-empty list of N records (the first nine in the catalog's
    shape), the payload of Variant B has one embed more than the smaller of N
    and 9: never more than ten. *)
Theorem variant_b_embed_count (py_repr : json -> string) (current_time : string)
    (screenshots : gmap pykey json) (records : list pydict) :
  records <> [] ->
  Forall (fun g => record_ok g = true) (take 9 records) ->
  exists embeds,
    VariantB.format_discord_message py_repr current_time (games_of records) screenshots
    = Ok (JDict [("embeds", JList embeds)])
    /\ length embeds = S (length records `min` 9)
    /\ (length embeds <= 10)%nat.
Proof.
  intros Hne Hok.
  destruct (format_first_nine py_repr screenshots current_time records Hne Hok)
    as (embeds & Hfmt & Hall).
  exists (header_B current_time :: embeds). split; [exact Hfmt|].
  cbn [length]. rewrite <- (Forall2_length _ _ _ Hall), length_take. lia.
Qed.

Lemma variant_b_embed_count_witness :
  exists embeds,
    VariantB.format_discord_message (fun _ => "") "2025-01-01 00:00:00"
      (games_of [mock_foo_catalog; mock_bar]) ∅
    = Ok (JDict [("embeds", JList embeds)])
    /\ length embeds = 3%nat.
Proof.
  destruct (variant_b_embed_count (fun _ => "") "2025-01-01 00:00:00" ∅
              [mock_foo_catalog; mock_bar]) as (embeds & H1 & H2 & _).
  - discriminate.
  - cbn. repeat constructor.
  - exists embeds. split; [exact H1|exact H2].
Defined.

(** The platforms text of a record whose platforms are a list of entries in
    the catalog's shape is the names of the entries that have a platform,
    in list order, joined by a comma and a space; an entry without a
    platform is skipped and a platform without a name gives the empty
    string.  Variant A shows that text in the record's field. *)
Theorem platforms_are_joined_names (py_repr : json -> string) (g : pydict)
    (l : list json) :
  dict_get "platforms" g = Some (JList l) ->
  forallb platform_entry_ok l = true ->
  platforms_of (JDict g) = Ok (String.concat ", " (omap entry_name l))
  /\ VariantA.game_field py_repr (JDict g)
     = Ok (field_A (shown_name py_repr g) (shown_release py_repr g)
             (String.concat ", " (omap entry_name l))).
Proof.
  intros Hpl Hl.
  assert (platforms_of (JDict g) = Ok (String.concat ", " (omap entry_name l)))
    as Hjoined.
  { unfold platforms_of. cbn [py_get res_bind]. rewrite Hpl. cbn [from_option id].
    unfold py_or. destruct l as [|p l']; [reflexivity|].
    cbn [py_truthy py_iter res_bind].
    rewrite (platform_names_are_entry_names _ Hl). cbn [res_bind].
    unfold py_join. rewrite py_strs_strings. reflexivity. }
  split; [exact Hjoined|].
  unfold VariantA.game_field. rewrite Hjoined. cbn [py_get res_bind].
  unfold field_A, platforms_line, shown_name, shown_release. cbn [py_truthy].
  destruct (String.eqb (String.concat ", " (omap entry_name l)) ""); reflexivity.
Qed.

Lemma platforms_are_joined_names_witness :
  platforms_of
    (JDict [("platforms",
             JList [ JDict [("platform", JDict [("name", JStr "PC")])];
                     JDict [("platform", JNull)];
                     JDict [("platform", JDict [("name", JStr "Xbox One")])] ])])
  = Ok "PC, Xbox One".
Proof.
  apply (platforms_are_joined_names (fun _ => "")
           [("platforms",
             JList [ JDict [("platform", JDict [("name", JStr "PC")])];
                     JDict [("platform", JNull)];
                     JDict [("platform", JDict [("name", JStr "Xbox One")])] ])]
           _ eq_refl eq_refl).
Defined.

(** A record whose release date is there but null is shown with the text
    "None" in both variants, and one whose name is there but null is shown
    as "**None**" in Variant A and gets a null title in Variant B: the
    defaults "TBA" and "Unknown Title" stand in for a missing key only.
    (The catalog sends a null release date for a game without one.) *)
Theorem null_is_shown_as_none (py_repr : json -> string)
    (screenshots : gmap pykey json) (g : pydict) :
  platforms_ok g = true ->
  (dict_get "released" g = Some JNull ->
   VariantA.game_field py_repr (JDict g)
   = Ok (field_A (shown_name py_repr g) "None" (expected_platforms g)))
  /\ (dict_get "name" g = Some JNull ->
      VariantA.game_field py_repr (JDict g)
      = Ok (field_A "None" (shown_release py_repr g) (expected_platforms g)))
  /\ (id_ok g = true ->
      exists embed,
        VariantB.game_embed py_repr screenshots (JDict g) = Ok (JDict embed)
        /\ (dict_get "released" g = Some JNull ->
            exists more,
              dict_get "fields" embed
              = Some (JList
                  (JDict [ ("name", JStr "Release Date");
                           ("value", JStr (bytes [240; 159; 147; 133]%N
                                             +:+ " **None**"));
                           ("inline", JBool true) ] :: more)))
        /\ (dict_get "name" g = Some JNull ->
            dict_get "title" embed = Some JNull)).
Proof.
  intros Hok. rewrite (game_field_expected py_repr g Hok).
  unfold expected_field_A, shown_name, shown_release.
  split; [|split]; [intros ->; reflexivity..|].
  intros Hid. exists (expected_entries_B py_repr screenshots g). split.
  - apply game_embed_expected. unfold record_ok. by rewrite Hok, Hid.
  - unfold expected_entries_B, shown_release. split.
    + intros ->. eexists. reflexivity.
    + intros ->. reflexivity.
Qed.

Lemma null_is_shown_as_none_witness :
  VariantA.game_field (fun _ => "")
    (JDict [("name", JStr "Foo"); ("released", JNull)])
  = Ok (field_A "Foo" "None" "").
Proof.
  destruct (null_is_shown_as_none (fun _ => "") ∅
              [("name", JStr "Foo"); ("released", JNull)] eq_refl)
    as (H & _).
  exact (H eq_refl).
Defined.


(** ** The claims on the formatters *)

(** C5, as the code has it. For a non-empty list of N records whose
    platforms have the catalog's shape (missing, null, empty, or a list of
    [{"platform": {"name": ...}}] objects), Variant A returns one embed whose
    fields list has exactly N entries, the i-th being the field of the i-th
    record: its name in bold, its release date, its platform names joined;
    a record without a ["released"] key is shown with the release date
    "TBA". *)
Theorem variant_a_one_field_per_record (py_repr : json -> string)
    (current_time : string) (records : list pydict) :
  records <> [] ->
  Forall (fun g => platforms_ok g = true) records ->
  VariantA.format_discord_message py_repr current_time (games_of records)
  = Ok (JDict [("embeds",
          JList [JDict (embed_A (expected_field_A py_repr <$> records)
                          current_time)])])
  /\ dict_get "fields" (embed_A (expected_field_A py_repr <$> records) current_time)
     = Some (JList (expected_field_A py_repr <$> records))
  /\ length (expected_field_A py_repr <$> records) = length records
  /\ forall (i : nat) (g : pydict),
       records !! i = Some g ->
       (expected_field_A py_repr <$> records) !! i
       = Some (field_A (shown_name py_repr g) (shown_release py_repr g)
                 (expected_platforms g))
       /\ (dict_get "released" g = None ->
           (expected_field_A py_repr <$> records) !! i
           = Some (field_A (shown_name py_repr g) "TBA" (expected_platforms g))).
Proof.
  intros Hne Hok. split; [by apply format_a_expected|].
  split; [reflexivity|]. split; [by rewrite length_fmap|].
  intros i g Hi. rewrite list_lookup_fmap, Hi. cbn [fmap option_fmap option_map].
  split; [reflexivity|]. intros Hrel.
  unfold expected_field_A, shown_release. rewrite Hrel. reflexivity.
Qed.

Lemma variant_a_one_field_per_record_witness :
  VariantA.format_discord_message (fun _ => "") "2025-01-01 00:00:00"
    (games_of [mock_foo_catalog; mock_bar])
  = Ok (JDict [("embeds",
          JList [JDict (embed_A [ field_A "Foo" "2025-03-01" "PC";
                                  field_A "Bar" "TBA" "" ]
                          "2025-01-01 00:00:00")])]).
Proof.
  destruct (variant_a_one_field_per_record (fun _ => "") "2025-01-01 00:00:00"
              [mock_foo_catalog; mock_bar]) as [H _].
  - discriminate.
  - repeat constructor.
  - exact H.
Defined.

(** C5, as stated, fails: on a list of one record as the data model writes
    it, with platforms a list of name strings, Variant A raises
    [AttributeError] and returns no embed. *)
Lemma named_platforms_raise_in_a :
  VariantA.format_discord_message (fun _ => "") "2025-01-01 00:00:00"
    (games_of [mock_foo])
  = Raise AttributeError.
Proof. reflexivity. Qed.

(** C1, as the code has it. For a list of ten or more records whose first
    nine have the catalog's shape (platforms missing, null, empty, or a list
    of [{"platform": {"name": ...}}] objects; an id a dict can be keyed by)
    and any screenshot mapping, Variant B returns a payload whose embeds
    list has exactly ten elements: the header embed, then the embeds of the
    first nine records in order.  The records from the tenth on do not
    reach the output: any other tail gives the same payload. *)
Theorem variant_b_ten_embeds (py_repr : json -> string) (current_time : string)
    (screenshots : gmap pykey json) (records : list pydict) :
  (10 <= length records)%nat ->
  Forall (fun g => record_ok g = true) (take 9 records) ->
  VariantB.format_discord_message py_repr current_time (games_of records) screenshots
  = Ok (JDict [("embeds",
          JList (expected_header_B current_time
                   :: (expected_embed_B py_repr screenshots <$> take 9 records)))])
  /\ length (expected_header_B current_time
               :: (expected_embed_B py_repr screenshots <$> take 9 records))
     = 10%nat
  /\ forall others,
       VariantB.format_discord_message py_repr current_time
         (games_of (take 9 records ++ others)) screenshots
       = VariantB.format_discord_message py_repr current_time (games_of records)
           screenshots.
Proof.
  intros Hlen Hok.
  assert (records <> []) as Hne by (intros ->; cbn in Hlen; lia).
  split; [by apply format_b_expected|]. split.
  - cbn [length]. rewrite length_fmap, length_take. lia.
  - intros others. apply format_ignores_tail; [exact Hne|].
    rewrite take_app_le by (rewrite length_take; lia).
    apply take_take.
Qed.

Lemma variant_b_ten_embeds_witness :
  VariantB.format_discord_message (fun _ => "") "2025-01-01 00:00:00"
    (games_of (replicate 12 mock_bar)) {[ KInt 2 := JStr "https://img.example/2.jpg" ]}
  = Ok (JDict [("embeds",
          JList (expected_header_B "2025-01-01 00:00:00"
                   :: replicate 9
                        (JDict [ ("title", JStr "Bar");
                                 ("color", JInt 3447003);
                                 ("fields", JList
                                    [ JDict [ ("name", JStr "Release Date");
                                              ("value", JStr (calendar +:+ " **TBA**"));
                                              ("inline", JBool true) ] ]);
                                 ("image",
                                  JDict [("url", JStr "https://img.example/2.jpg")]) ])))]).
Proof.
  destruct (variant_b_ten_embeds (fun _ => "") "2025-01-01 00:00:00"
              {[ KInt 2 := JStr "https://img.example/2.jpg" ]} (replicate 12 mock_bar))
    as [H _].
  - cbn. lia.
  - cbn. repeat constructor.
  - exact H.
Defined.

(** C1, as stated, fails: on ten records as the data model writes them,
    with platforms a list of name strings, Variant B raises
    [AttributeError] and returns no embeds at all. *)
Lemma ten_named_records_raise :
  VariantB.format_discord_message (fun _ => "") "2025-01-01 00:00:00"
    (games_of ten_named) ∅
  = Raise AttributeError.
Proof. reflexivity. Qed.

(** C9, as the code has it. For every record among the first nine of a
    non-empty list (those nine in the catalog's shape), the record's embed
    in Variant B's payload carries the image block with the mapped URL
    exactly when the screenshot mapping holds a URL for the record's id;
    otherwise, and only then, it carries the footer with the text
    "No screenshot available for this game". *)
Theorem variant_b_image_or_footer (py_repr : json -> string) (current_time : string)
    (screenshots : gmap pykey json) (records : list pydict) (i : nat) (g : pydict) :
  records !! i = Some g ->
  (i < 9)%nat ->
  Forall (fun g => record_ok g = true) (take 9 records) ->
  exists embeds e,
    VariantB.format_discord_message py_repr current_time (games_of records) screenshots
    = Ok (JDict [("embeds", JList embeds)])
    /\ embeds !! S i = Some (JDict e)
    /\ e = expected_entries_B py_repr screenshots g
    /\ (forall url,
          has_screenshot screenshots g url
          <-> dict_get "image" e = Some (JDict [("url", url)]))
    /\ ((~ exists url, has_screenshot screenshots g url)
        <-> dict_get "footer" e
            = Some (JDict [("text", JStr "No screenshot available for this game")]))
    /\ (dict_get "image" e = None
        <-> dict_get "footer" e
            = Some (JDict [("text", JStr "No screenshot available for this game")])).
Proof.
  intros Hi Hlt Hok.
  assert (records <> []) as Hne by (intros ->; discriminate).
  assert (take 9 records !! i = Some g) as Hi' by (rewrite lookup_take_lt; done).
  assert (record_ok g = true) as Hg.
  { rewrite Forall_lookup in Hok. exact (Hok i g Hi'). }
  assert (id_ok g = true) as Hid.
  { unfold record_ok in Hg. by apply andb_prop in Hg as [_ ?]. }
  destruct (id_ok_key g Hid) as [k Hk].
  assert (forall url, has_screenshot screenshots g url
                      <-> expected_screenshot screenshots g = Some url) as Hshot.
  { intros url. unfold has_screenshot, expected_screenshot. rewrite Hk. split.
    - intros (k' & [= <-] & -> & ->). reflexivity.
    - intros H. exists k. split; [reflexivity|].
      destruct (screenshots !! k) as [u|]; [|discriminate].
      destruct (py_truthy u) eqn:Hu; [|discriminate].
      injection H as <-. auto. }
  exists (expected_header_B current_time
            :: (expected_embed_B py_repr screenshots <$> take 9 records)),
    (expected_entries_B py_repr screenshots g).
  split; [exact (format_b_expected py_repr _ _ _ Hne Hok)|].
  split.
  { change ((expected_embed_B py_repr screenshots <$> take 9 records) !! i
            = Some (expected_embed_B py_repr screenshots g)).
    by rewrite list_lookup_fmap, Hi'. }
  split; [reflexivity|].
  unfold expected_entries_B.
  destruct (expected_screenshot screenshots g) as [u|] eqn:Hu.
  - change (dict_get "image" _) with (Some (JDict [("url", u)])).
    change (dict_get "footer" _) with (@None json).
    split; [|split].
    + intros url. rewrite Hshot. split; intros H; injection H as ->; reflexivity.
    + split; [|discriminate]. intros Hno. exfalso. apply Hno.
      exists u. by apply Hshot.
    + split; discriminate.
  - change (dict_get "image" _) with (@None json).
    change (dict_get "footer" _)
      with (Some (JDict [("text", JStr "No screenshot available for this game")])).
    split; [|split].
    + intros url. rewrite Hshot. split; discriminate.
    + split; [reflexivity|]. intros _ [url Hurl]. apply Hshot in Hurl. discriminate.
    + split; reflexivity.
Qed.

Lemma variant_b_image_or_footer_witness :
  exists embeds e,
    VariantB.format_discord_message (fun _ => "") "2025-01-01 00:00:00"
      (games_of [mock_foo_catalog; mock_bar])
      {[ KInt 1 := JStr "https://img.example/1.jpg" ]}
    = Ok (JDict [("embeds", JList embeds)])
    /\ embeds !! 1%nat = Some (JDict e)
    /\ dict_get "image" e = Some (JDict [("url", JStr "https://img.example/1.jpg")]).
Proof.
  destruct (variant_b_image_or_footer (fun _ => "") "2025-01-01 00:00:00"
              {[ KInt 1 := JStr "https://img.example/1.jpg" ]}
              [mock_foo_catalog; mock_bar] 0 mock_foo_catalog)
    as (embeds & e & H1 & H2 & _ & H3 & _).
  - reflexivity.
  - lia.
  - cbn. repeat constructor.
  - exists embeds, e. split; [exact H1|]. split; [exact H2|].
    apply H3. exists (KInt 1). repeat split.
Defined.

(** C9, as stated, fails: for a record as the data model writes it (platforms
    a list of name strings), first of its list and with a URL mapped to its
    id, Variant B raises [AttributeError]: no embed carries an image or a
    footer. *)
Lemma named_platforms_raise_in_b :
  VariantB.format_discord_message (fun _ => "") "2025-01-01 00:00:00"
    (games_of [mock_foo]) {[ KInt 1 := JStr "https://img.example/1.jpg" ]}
  = Raise AttributeError.
Proof. reflexivity. Qed.

(** C6. A record whose platforms value is null, or which has no platforms
    key, never makes a formatter raise and gets no platforms text, alone or
    among other records.  Its field in Variant A ends after the release date
    line; the list is formatted exactly when its other records can be, and
    that field then stands at the record's place.  Its embed in Variant B
    (the record's id being one a dict can be keyed by) has the release date
    as its only field; with the record among the first nine, the list is
    formatted exactly when the others of those nine can be, and that embed
    then stands at the record's place after the header. *)
Theorem null_platforms_never_raise (py_repr : json -> string) (current_time : string)
    (screenshots : gmap pykey json) (records : list pydict) (i : nat) (g : pydict) :
  records !! i = Some g ->
  platforms_null g ->
  let field :=
    JDict [ ("name", JStr ("**" +:+ shown_name py_repr g +:+ "**"));
            ("value", JStr (calendar_A +:+ " Release Date: **"
                              +:+ shown_release py_repr g +:+ "**" +:+ nl)) ] in
  let embed :=
    JDict
      [ ("title", default (JStr "Unknown Title") (dict_get "name" g));
        ("color", JInt 3447003);
        ("fields", JList
           [ JDict [ ("name", JStr "Release Date");
                     ("value", JStr (bytes [240; 159; 147; 133]%N +:+ " **"
                                       +:+ shown_release py_repr g +:+ "**"));
                     ("inline", JBool true) ] ]);
        match expected_screenshot screenshots g with
        | Some url => ("image", JDict [("url", url)])
        | None => ("footer",
                   JDict [("text", JStr "No screenshot available for this game")])
        end ] in
  VariantA.game_field py_repr (JDict g) = Ok field
  /\ ((exists payload,
         VariantA.format_discord_message py_repr current_time (games_of records)
         = Ok payload)
      <-> Forall (fun g' => platforms_ok g' = true) (delete i records))
  /\ (Forall (fun g' => platforms_ok g' = true) (delete i records) ->
      exists fields,
        VariantA.format_discord_message py_repr current_time (games_of records)
        = Ok (JDict [("embeds", JList [JDict (embed_A fields current_time)])])
        /\ fields !! i = Some field)
  /\ (id_ok g = true ->
      VariantB.game_embed py_repr screenshots (JDict g) = Ok embed
      /\ ((i < 9)%nat ->
          (exists payload,
             VariantB.format_discord_message py_repr current_time (games_of records)
               screenshots
             = Ok payload)
          <-> Forall (fun g' => record_ok g' = true) (delete i (take 9 records)))
      /\ ((i < 9)%nat ->
          Forall (fun g' => record_ok g' = true) (delete i (take 9 records)) ->
          exists embeds,
            VariantB.format_discord_message py_repr current_time (games_of records)
              screenshots
            = Ok (JDict [("embeds", JList embeds)])
            /\ embeds !! S i = Some embed)).
Proof.
  intros Hi Hnull field embed.
  assert (records <> []) as Hne by (intros ->; discriminate).
  assert (platforms_ok g = true) as Hpl by (by apply platforms_null_ok).
  assert (expected_platforms g = "") as Hnone.
  { unfold expected_platforms. by destruct Hnull as [-> | ->]. }
  assert (expected_field_A py_repr g = field) as Hfield.
  { unfold expected_field_A, field_A, platforms_line. rewrite Hnone. reflexivity. }
  assert (expected_embed_B py_repr screenshots g = embed) as Hembed.
  { unfold expected_embed_B, expected_entries_B. rewrite Hnone. reflexivity. }
  split; [|split; [|split]].
  - rewrite <- Hfield. by apply game_field_expected.
  - split.
    + intros [payload Hfmt]. apply Forall_delete.
      by eapply format_a_returns_only_ok.
    + intros Hothers. eexists. apply format_a_expected; [exact Hne|].
      by eapply Forall_undelete.
  - intros Hothers.
    assert (Forall (fun g' => platforms_ok g' = true) records) as Hok
      by (by eapply Forall_undelete).
    eexists. split; [exact (format_a_expected py_repr _ _ Hne Hok)|].
    by rewrite list_lookup_fmap, Hi, <- Hfield.
  - intros Hid.
    assert (record_ok g = true) as Hg by (unfold record_ok; by rewrite Hpl, Hid).
    split; [rewrite <- Hembed; by apply game_embed_expected|].
    split.
    { intros Hlt.
      assert (take 9 records !! i = Some g) as Hi' by (rewrite lookup_take_lt; done).
      split.
      - intros [payload Hfmt]. apply Forall_delete.
        by eapply format_b_returns_only_ok.
      - intros Hothers. eexists. apply format_b_expected; [exact Hne|].
        by eapply Forall_undelete. }
    intros Hlt Hothers.
    assert (take 9 records !! i = Some g) as Hi' by (rewrite lookup_take_lt; done).
    assert (Forall (fun g' => record_ok g' = true) (take 9 records)) as Hok
      by (by eapply Forall_undelete).
    eexists. split; [exact (format_b_expected py_repr _ _ _ Hne Hok)|].
    change ((expected_embed_B py_repr screenshots <$> take 9 records) !! i
            = Some embed).
    by rewrite list_lookup_fmap, Hi', <- Hembed.
Qed.

Lemma null_platforms_never_raise_witness :
  exists fields,
    VariantA.format_discord_message (fun _ => "") "2025-01-01 00:00:00"
      (games_of [mock_foo_catalog; mock_bar])
    = Ok (JDict [("embeds", JList [JDict (embed_A fields "2025-01-01 00:00:00")])])
    /\ fields !! 1%nat
       = Some (JDict [ ("name", JStr "**Bar**");
                       ("value", JStr (calendar_A +:+ " Release Date: **TBA**"
                                         +:+ nl)) ]).
Proof.
  destruct (null_platforms_never_raise (fun _ => "") "2025-01-01 00:00:00" ∅
              [mock_foo_catalog; mock_bar] 1 mock_bar eq_refl)
    as (_ & _ & H & _).
  - right. reflexivity.
  - apply H. cbn. repeat constructor.
Defined.
